(** * Markdown file creation and file actions of the Typora launcher extension

    A shallow embedding of [src/utils/createMarkdown.ts] (template
    rendering, filename derivation, file creation, editor launch) and of
    the two destructive actions of [src/components/FileListItem.tsx]
    ([confirmDelete], [handleMoveToTrash]), with the properties the
    specification states about them.

    JavaScript strings are sequences of UTF-16 code units; they are
    modelled as [list N].  The file system, the notifications and the
    other host calls are modelled by explicit state passing: a [World]
    holds the files, the directories and the trace of host calls, and a
    [Host] record fixes what the calls the program cannot control
    answer. *)

From Stdlib Require Import NArith ZArith List Ascii String Lia Bool DecimalString.
From stdpp Require Import gmap list.

Open Scope N_scope.

(** ** JavaScript strings *)

Abbreviation jsstring := (list N).

(** An ASCII literal of the source, as code units. *)
Definition lit (s : string) : jsstring :=
  N_of_ascii <$> list_ascii_of_string s.
Arguments lit : simpl never.

Definition dquote : N := 34.
Definition dollar : N := 36.
Definition hyphen : N := 45.
Definition lbrace : N := 123.

Definition is_digit (c : N) : bool := (48 <=? c) && (c <=? 57).
Definition is_lower (c : N) : bool := (97 <=? c) && (c <=? 122).
Definition is_upper (c : N) : bool := (65 <=? c) && (c <=? 90).

(** An ASCII letter or digit. *)
Definition is_ascii_alnum (c : N) : bool :=
  is_lower c || is_upper c || is_digit c.

Definition jsstring_eqb (a b : jsstring) : bool := bool_decide (a = b).

(** [s.startsWith(p)] *)
Fixpoint startsWith (s p : jsstring) {struct p} : bool :=
  match p, s with
  | [], _ => true
  | _ :: _, [] => false
  | x :: p', y :: s' => (x =? y) && startsWith s' p'
  end.

(** [a] occurs in [s] as a substring. *)
Fixpoint includes (s a : jsstring) : bool :=
  startsWith s a ||
  match s with
  | [] => false
  | _ :: s' => includes s' a
  end.

(** [String.prototype.toLowerCase] on one code unit.  On the code units
    below 128 this is the whole of the JavaScript function: [A-Z] go to
    [a-z], the others stay.  The only call of [toLowerCase] in the
    source receives the result of the filename replacement, whose code
    units are ASCII letters, digits and hyphens
    ([replaceNonAlnum_ascii] below), so the Unicode case tables are
    never consulted; the units from 128 on are left as they are. *)
Definition lower_unit (c : N) : N := if is_upper c then c + 32 else c.

Definition toLowerCase (s : jsstring) : jsstring := lower_unit <$> s.

(** [Array.prototype.join]. *)
Fixpoint join (sep : jsstring) (l : list jsstring) : jsstring :=
  match l with
  | [] => []
  | [x] => x
  | x :: rest => x ++ sep ++ join sep rest
  end.

(** ** [String.prototype.replace] with a global regular expression

    The source only replaces with a string (never a function), and its
    patterns have no capture group.  The replacement string is expanded
    at every match by GetSubstitution: [$$] is a dollar, [$&] the matched
    text, [$`] the text before the match, [$'] the text after it; a
    dollar followed by anything else ([$1], [$<], ...) stays as it is
    since there is no group to refer to. *)
Fixpoint getSubstitution (matched before after repl : jsstring) : jsstring :=
  match repl with
  | [] => []
  | c :: r =>
      if c =? dollar then
        match r with
        | [] => [c]
        | d :: r' =>
            if d =? 36 then dollar :: getSubstitution matched before after r'
            else if d =? 38 then matched ++ getSubstitution matched before after r'
            else if d =? 96 then before ++ getSubstitution matched before after r'
            else if d =? 39 then after ++ getSubstitution matched before after r'
            else c :: getSubstitution matched before after r
        end
      else c :: getSubstitution matched before after r
  end.

Section Replace.
(** [match_here s] is the length of the match of the pattern at the
    head of the rest [s] of the input, when there is one.  Both
    patterns of the source match at least one code unit. *)
Variable match_here : jsstring -> option nat.
Variable repl : jsstring.

(** Scan left to right; [before_rev] is the input consumed so far
    (reversed) and [skip] counts the units of the current match that
    are still to be stepped over. *)
Fixpoint replace_from (before_rev : jsstring) (skip : nat) (s : jsstring)
  : jsstring :=
  match s with
  | [] => []
  | c :: s' =>
      match skip with
      | S k => replace_from (c :: before_rev) k s'
      | O =>
          match match_here s with
          | Some n =>
              getSubstitution (take n s) (rev before_rev) (drop n s) repl
                ++ replace_from (c :: before_rev) (Nat.pred n) s'
          | None => c :: replace_from (c :: before_rev) 0 s'
          end
      end
  end.

Definition replace_g (s : jsstring) : jsstring := replace_from [] 0 s.
End Replace.

(** A pattern made of literal characters, such as [/{{title}}/]. *)
Definition match_literal (pat : jsstring) (s : jsstring) : option nat :=
  if startsWith s pat then Some (length pat) else None.

(** Canonicalize of a case-insensitive pattern without the [u] flag:
    the upper-case form of the unit, except that a unit from 128 on is
    never mapped below 128.  Only whether the result lies in [A-Z0-9]
    matters here, so the units from 128 on are left as they are. *)
Definition canonicalize (c : N) : N := if is_lower c then c - 32 else c.

(** The class [[a-z0-9]] under the [i] flag: the canonical form of the
    unit is the canonical form of a member of the class. *)
Definition class_az09_i (c : N) : bool :=
  is_upper (canonicalize c) || is_digit (canonicalize c).

(** [/[^a-z0-9]/gi]: one unit outside the class. *)
Definition match_not_az09 (s : jsstring) : option nat :=
  match s with
  | c :: _ => if class_az09_i c then None else Some 1%nat
  | [] => None
  end.

(** ** Filename derivation (createMarkdown.ts, lines 130-131) *)

(** [title.replace(/[^a-z0-9]/gi, "-")] *)
Definition replaceNonAlnum (title : jsstring) : jsstring :=
  replace_g match_not_az09 (lit "-") title.

(** [const sanitizedTitle = title.replace(/[^a-z0-9]/gi, "-").toLowerCase()] *)
Definition sanitizedTitle (title : jsstring) : jsstring :=
  toLowerCase (replaceNonAlnum title).

(** [const fileName = `${sanitizedTitle}.md`] *)
Definition fileName (title : jsstring) : jsstring :=
  sanitizedTitle title ++ lit ".md".

(** The units a derived filename is made of before its extension. *)
Definition is_name_unit (c : N) : bool :=
  is_lower c || is_digit c || (c =? hyphen).

(** ** Templates (createMarkdown.ts, lines 24-84) *)

(** Every line of a template literal ends with a newline. *)
Definition unlines (ls : list jsstring) : jsstring :=
  concat ((fun l => l ++ [10]) <$> ls).

Definition tpl_empty : jsstring := [].

Definition tpl_basic : jsstring :=
  unlines [ lit "# {{title}}"; [];
            lit "Created: {{date}}";
            lit "Tags: {{tags}}"; [];
            lit "## Content"; [] ].

Definition tpl_meeting : jsstring :=
  unlines [ lit "# Meeting: {{title}}"; [];
            lit "Date: {{date}}";
            lit "Participants: ";
            lit "Tags: {{tags}}"; [];
            lit "## Agenda"; [];
            lit "- "; [];
            lit "## Notes"; [];
            lit "- "; [];
            lit "## Action Items"; [];
            lit "- [ ] " ].

Definition tpl_blog : jsstring :=
  unlines [ lit "---";
            lit "title: " ++ [dquote] ++ lit "{{title}}" ++ [dquote];
            lit "date: " ++ [dquote] ++ lit "{{date}}" ++ [dquote];
            lit "tags: [{{tags}}]";
            lit "draft: true";
            lit "---"; [];
            lit "# {{title}}"; [];
            lit "## Introduction"; [] ].

Definition tpl_project : jsstring :=
  unlines [ lit "# Project: {{title}}"; [];
            lit "Start Date: {{date}}";
            lit "Status: Planning";
            lit "Tags: {{tags}}"; [];
            lit "## Overview"; [];
            lit "## Goals"; [];
            lit "- "; [];
            lit "## Timeline"; [];
            lit "- [ ] "; [];
            lit "## Resources"; [];
            lit "- " ].

(** What reading a property of the [templates] object gives. *)
Inductive JsValue :=
| VString (s : jsstring)
| VInherited (key : jsstring)
| VUndefined.

(** [templates] is an object literal, so besides its five own keys a
    lookup finds the members it inherits from [Object.prototype]
    (functions, and the prototype object itself for [__proto__]). *)
Definition object_prototype_keys : list jsstring :=
  lit <$> [ "constructor"; "__defineGetter__"; "__defineSetter__";
            "hasOwnProperty"; "__lookupGetter__"; "__lookupSetter__";
            "isPrototypeOf"; "propertyIsEnumerable"; "toString";
            "valueOf"; "__proto__"; "toLocaleString" ]%string.

(** [templates[template as keyof typeof templates]] *)
Definition templates (key : jsstring) : JsValue :=
  if jsstring_eqb key (lit "empty") then VString tpl_empty
  else if jsstring_eqb key (lit "basic") then VString tpl_basic
  else if jsstring_eqb key (lit "meeting") then VString tpl_meeting
  else if jsstring_eqb key (lit "blog") then VString tpl_blog
  else if jsstring_eqb key (lit "project") then VString tpl_project
  else if bool_decide (key ∈ object_prototype_keys) then VInherited key
  else VUndefined.

(** ToBoolean: the empty string and [undefined] are falsy, functions
    and objects are truthy. *)
Definition truthy (v : JsValue) : bool :=
  match v with
  | VString [] => false
  | VString (_ :: _) => true
  | VInherited _ => true
  | VUndefined => false
  end.

(** [a || b] *)
Definition js_or (a b : JsValue) : JsValue := if truthy a then a else b.

(** [let content = templates[template as keyof typeof templates] || templates.basic]
    (line 150) *)
Definition templateContent (template : jsstring) : JsValue :=
  js_or (templates template) (VString tpl_basic).

(** ** Placeholder substitution (lines 155-159) *)

(** [tag.startsWith('#') ? tag : `#${tag}`] *)
Definition formatTag (tag : jsstring) : jsstring :=
  if startsWith tag (lit "#") then tag else lit "#" ++ tag.

(** [const formattedTags = tags.map(...)] *)
Definition formattedTags (tags : list jsstring) : list jsstring :=
  formatTag <$> tags.

(** [formattedTags && formattedTags.length > 0 ? formattedTags.join(", ") : ""]:
    an array is always truthy. *)
Definition tagsText (ft : list jsstring) : jsstring :=
  if (0 <? length ft)%nat then join (lit ", ") ft else [].

Definition replaceTitle (title content : jsstring) : jsstring :=
  replace_g (match_literal (lit "{{title}}")) title content.
Definition replaceDate (date content : jsstring) : jsstring :=
  replace_g (match_literal (lit "{{date}}")) date content.
Definition replaceTags (text content : jsstring) : jsstring :=
  replace_g (match_literal (lit "{{tags}}")) text content.

(** [content.replace(/{{title}}/g, title).replace(/{{date}}/g, formattedDate)
            .replace(/{{tags}}/g, ...)] *)
Definition render (content title formattedDate : jsstring)
    (tags : list jsstring) : jsstring :=
  replaceTags (tagsText (formattedTags tags))
    (replaceDate formattedDate (replaceTitle title content)).

(** The substitution as the specification words it: every occurrence
    of [pat], found left to right without overlap, gives way to the text
    [v] exactly as it is. *)
Fixpoint substitute_from (pat v : jsstring) (skip : nat) (s : jsstring)
  : jsstring :=
  match s with
  | [] => []
  | c :: s' =>
      match skip with
      | S k => substitute_from pat v k s'
      | O =>
          if startsWith s pat
          then v ++ substitute_from pat v (Nat.pred (length pat)) s'
          else c :: substitute_from pat v 0 s'
      end
  end.

Definition substitute (pat v s : jsstring) : jsstring :=
  substitute_from pat v 0 s.


(** No dollar sign, so nothing for GetSubstitution to expand. *)
Definition dollar_free (s : jsstring) : Prop := Forall (fun c => c <> dollar) s.

(** The text holds one of the patterns GetSubstitution expands: a dollar
    before a dollar, an ampersand, a backquote or a quote. *)
Fixpoint dollar_pattern (s : jsstring) : bool :=
  match s with
  | [] => false
  | c :: r =>
      ((c =? dollar)
       && match r with
          | d :: _ => (d =? 36) || (d =? 38) || (d =? 96) || (d =? 39)
          | [] => false
          end)
      || dollar_pattern r
  end.

(** ** The current date (lines 153-154) *)

Record Date := { year : N; month : N; day : N }.

Definition digit (n : N) : N := 48 + n mod 10.

(** The last [width] decimal digits of [n]. *)
Fixpoint digits (width : nat) (n : N) : jsstring :=
  match width with
  | O => []
  | S w => digits w (n / 10) ++ [digit n]
  end.

(** [now.toISOString().split("T")[0]]: the date part of the ISO form,
    four digits for the years up to 9999 and a sign with six digits
    beyond. *)
Definition formattedDate (now : Date) : jsstring :=
  (if year now <=? 9999 then digits 4 (year now)
   else lit "+" ++ digits 6 (year now))
  ++ lit "-" ++ digits 2 (month now) ++ lit "-" ++ digits 2 (day now).

(** ** Thrown values *)

Inductive Thrown :=
| ErrorObj (name message : jsstring)
| NonError (text : jsstring).

(** [String(error)]: [Error.prototype.toString] for an instance of
    [Error], the text of the value otherwise. *)
Definition String_of (e : Thrown) : jsstring :=
  match e with
  | ErrorObj [] m => m
  | ErrorObj n [] => n
  | ErrorObj n m => n ++ lit ": " ++ m
  | NonError t => t
  end.

(** [error instanceof Error ? error.message : String(error)] *)
Definition message_of (e : Thrown) : jsstring :=
  match e with
  | ErrorObj _ m => m
  | NonError t => t
  end.

(** ** The world: file system and trace of host calls *)

Inductive ToastStyle := Success | Failure.

Inductive Event :=
| ShowToast (style : ToastStyle) (title message : jsstring)
| ConfirmAlert (title message primaryTitle : jsstring) (destructive : bool)
| Exec (command : jsstring)
| Open (target : jsstring)
| ConsoleWarn (text : jsstring) (e : Thrown)
| ConsoleError (text : jsstring) (e : Thrown)
| MkdirSync (dir : jsstring)
| WriteFileSync (file content : jsstring)
| UnlinkSync (file : jsstring)
| MoveToTrash (file : jsstring)
| Revalidate.

(** [files] and [dirs] are the file system as the calls of the program
    itself leave it ([mkdirSync], [writeFileSync], [unlinkSync],
    [moveToTrash]); what a launched application, or a command the shell
    runs, does to the disk is not part of it.  [trace] lists the calls
    in their order. *)
Record World := {
  files : gmap (list N) (list N);
  dirs : gset (list N);
  trace : list Event;
}.

Record Preferences := { defaultEditor : option jsstring }.

(** What the program does not control.  [path.join], [path.basename]
    and [homedir] are Node's; [moveToTrash] is imported from
    [../utils/fileOperations], which is not part of the sources at
    hand, and is taken as a parameter that answers a boolean or throws.
    [open] is called twice with the same argument, so its answer may
    depend on the calls made before.  [mkdir_made dir] lists the missing
    parents a recursive [mkdirSync] of [dir] makes: all of them when it
    succeeds, those made before the failure when it throws.
    [write_partial file content] is what a [writeFileSync] that throws
    leaves at [file]: nothing when it fails before the file is opened,
    an empty or partial file when it fails while writing.
    [unlink_directory_error] is the error of [unlinkSync] on a
    directory ([EPERM] on macOS, [EISDIR] on Linux). *)
Record Host := {
  homedir : jsstring;
  path_join : jsstring -> jsstring -> jsstring;
  path_basename : jsstring -> jsstring;
  now : Date;
  getPreferenceValues : Thrown + Preferences;
  exec_error : jsstring -> option Thrown;
  open_error : list Event -> jsstring -> option Thrown;
  mkdir_error : jsstring -> option Thrown;
  write_error : jsstring -> option Thrown;
  unlink_error : jsstring -> option Thrown;
  mkdir_made : jsstring -> list jsstring;
  write_partial : jsstring -> jsstring -> option jsstring;
  unlink_directory_error : jsstring -> Thrown;
  confirmAlert_answer : bool;
  moveToTrash_result : jsstring -> Thrown + bool;
}.

(** ** Computations that read and change the world and may throw *)

Inductive Outcome (A : Type) :=
| Returned (a : A)
| Threw (e : Thrown).
Arguments Returned {A} a.
Arguments Threw {A} e.

Definition M (A : Type) : Type := World -> Outcome A * World.

Definition ret {A} (a : A) : M A := fun w => (Returned a, w).

Definition bind {A B} (m : M A) (k : A -> M B) : M B :=
  fun w =>
    match m w with
    | (Returned a, w') => k a w'
    | (Threw e, w') => (Threw e, w')
    end.

Declare Scope prog_scope.
Delimit Scope prog_scope with prog.
Bind Scope prog_scope with M.
Notation "x ← m ; k" := (bind m (fun x => k))
  (at level 20, m at level 100, k at level 200, only parsing) : prog_scope.
Notation "m ;; k" := (bind m (fun _ => k))
  (at level 100, k at level 200, only parsing, right associativity) : prog_scope.
Open Scope prog_scope.

Definition throw {A} (e : Thrown) : M A := fun w => (Threw e, w).

(** [try { body } catch (error) { handler }] *)
Definition try_catch {A} (body : M A) (handler : Thrown -> M A) : M A :=
  fun w =>
    match body w with
    | (Returned a, w') => (Returned a, w')
    | (Threw e, w') => handler e w'
    end.

Definition record (ev : Event) (w : World) : World :=
  {| files := files w; dirs := dirs w; trace := trace w ++ [ev] |}.

Definition emit (ev : Event) : M unit := fun w => (Returned tt, record ev w).

(** A host call that changes nothing but may throw. *)
Definition attempt (ev : Event) (err : option Thrown) : M unit :=
  fun w =>
    match err with
    | Some e => (Threw e, record ev w)
    | None => (Returned tt, record ev w)
    end.

Definition fs_exists (w : World) (p : jsstring) : bool :=
  bool_decide (is_Some (files w !! p)) || bool_decide (p ∈ dirs w).

Definition existsSync (p : jsstring) : M bool :=
  fun w => (Returned (fs_exists w p), w).

(** [fs.mkdirSync(dir, { recursive: true })]: the missing parents are
    made on the way, and stay when a later step throws. *)
Definition mkdirSync (h : Host) (dir : jsstring) : M unit :=
  fun w =>
    match mkdir_error h dir with
    | Some e =>
        (Threw e,
         {| files := files w;
            dirs := list_to_set (mkdir_made h dir) ∪ dirs w;
            trace := trace w ++ [MkdirSync dir] |})
    | None =>
        (Returned tt,
         {| files := files w;
            dirs := {[dir]} ∪ list_to_set (mkdir_made h dir) ∪ dirs w;
            trace := trace w ++ [MkdirSync dir] |})
    end.

(** [fs.writeFileSync(file, content)]: the file is opened (created or
    truncated) and then written, so a throw may leave a file behind. *)
Definition writeFileSync (h : Host) (file content : jsstring) : M unit :=
  fun w =>
    match write_error h file with
    | Some e =>
        (Threw e,
         {| files := match write_partial h file content with
                     | Some part => <[file := part]> (files w)
                     | None => files w
                     end;
            dirs := dirs w;
            trace := trace w ++ [WriteFileSync file content] |})
    | None =>
        (Returned tt,
         {| files := <[file := content]> (files w); dirs := dirs w;
            trace := trace w ++ [WriteFileSync file content] |})
    end.

Definition enoent (file : jsstring) : Thrown :=
  ErrorObj (lit "Error")
    (lit "ENOENT: no such file or directory, unlink '" ++ file ++ lit "'").

(** [fs.unlinkSync(file)]: removes a file; a directory and a missing
    path make it throw. *)
Definition unlinkSync (h : Host) (file : jsstring) : M unit :=
  fun w =>
    match unlink_error h file with
    | Some e => (Threw e, record (UnlinkSync file) w)
    | None =>
        match files w !! file with
        | None =>
            (Threw (if bool_decide (file ∈ dirs w)
                    then unlink_directory_error h file
                    else enoent file),
             record (UnlinkSync file) w)
        | Some _ =>
            (Returned tt,
             {| files := delete file (files w); dirs := dirs w;
                trace := trace w ++ [UnlinkSync file] |})
        end
    end.

Definition showToast (style : ToastStyle) (title message : jsstring) : M unit :=
  emit (ShowToast style title message).

(** The first argument of [showFailureToast]: a caught value, or an
    object literal with its fields. *)
Inductive FailureArgument :=
| OfThrown (e : Thrown)
| OfObject (fields : list (string * jsstring)).

(** [showFailureToast(error, options?)] of [@raycast/utils]: a toast of
    the failure style whose title is the title of the options, or
    [Something went wrong] without one, and whose message is
    [error.message] for an instance of [Error] and [String(error)]
    otherwise, which for an object literal is [[object Object]]. *)
Definition showFailureToast (error : FailureArgument)
    (optionsTitle : option jsstring) : M unit :=
  showToast Failure (default (lit "Something went wrong") optionsTitle)
    (match error with
     | OfThrown e => message_of e
     | OfObject _ => lit "[object Object]"
     end).

Definition console_warn (text : jsstring) (e : Thrown) : M unit :=
  emit (ConsoleWarn text e).
Definition console_error (text : jsstring) (e : Thrown) : M unit :=
  emit (ConsoleError text e).

(** The [revalidate] callback of the list. *)
Definition revalidate : M unit := emit Revalidate.

(** [execPromise(command)]: the command line is handed to the shell as
    it was built, the editor name and the path between double quotes
    and not escaped; the call is recorded with that text and throws
    when the host says so.  What the command does to the disk is
    outside the world (see [World]): nothing here says that a launch
    leaves the disk alone. *)
Definition execPromise (h : Host) (command : jsstring) : M unit :=
  attempt (Exec command) (exec_error h command).

(** [open(target)] of the host *)
Definition open (h : Host) (target : jsstring) : M unit :=
  fun w => attempt (Open target) (open_error h (trace w) target) w.

Definition readPreferences (h : Host) : M Preferences :=
  fun w =>
    match getPreferenceValues h with
    | inl e => (Threw e, w)
    | inr p => (Returned p, w)
    end.

(** [s || fallback] on a string that may be undefined. *)
Definition or_string (s : option jsstring) (fallback : jsstring) : jsstring :=
  match s with
  | Some (c :: r) => c :: r
  | Some [] | None => fallback
  end.

(** ** The editor launcher (createMarkdown.ts, lines 87-116) *)

(** How a block of statements ends: by [return], or by reaching its end. *)
Inductive Flow := Return | Fallthrough.

Definition typoraPath : jsstring :=
  lit "/Applications/Typora.app/Contents/MacOS/Typora".

(** [`open -a "${defaultEditor}" "${filePath}"`] *)
Definition openWithAppCommand (editor filePath : jsstring) : jsstring :=
  lit "open -a " ++ [dquote] ++ editor ++ [dquote] ++ lit " "
    ++ [dquote] ++ filePath ++ [dquote].

(** [`"${typoraPath}" "${filePath}"`] *)
Definition directCommand (filePath : jsstring) : jsstring :=
  [dquote] ++ typoraPath ++ [dquote] ++ lit " "
    ++ [dquote] ++ filePath ++ [dquote].

(** [`Failed to open with ${defaultEditor}:`] *)
Definition failedToOpenWith (editor : jsstring) : jsstring :=
  lit "Failed to open with " ++ editor ++ lit ":".

(** [preferences.defaultEditor || "Typora"] *)
Definition editorOf (p : Preferences) : jsstring :=
  or_string (defaultEditor p) (lit "Typora").

Definition openWithEditor (h : Host) (filePath : jsstring) : M unit :=
  try_catch
    (preferences ← readPreferences h;
     let defaultEditor := editorOf preferences in
     try_catch
       (execPromise h (openWithAppCommand defaultEditor filePath))
       (fun editorError =>
          console_warn (failedToOpenWith defaultEditor) editorError;;
          flow ← (if jsstring_eqb defaultEditor (lit "Typora") then
                    found ← existsSync typoraPath;
                    if found then
                      execPromise h (directCommand filePath);;
                      ret Return
                    else ret Fallthrough
                  else ret Fallthrough);
          match flow with
          | Return => ret tt
          | Fallthrough => open h filePath
          end))
    (fun error =>
       console_error (lit "Failed to open file:") error;;
       open h filePath).

(** ** File creation (createMarkdown.ts, lines 119-184) *)

Record CreateMarkdownOptions := {
  title : jsstring;
  template : option jsstring;
  tags : option (list jsstring);
  targetPath : option jsstring;
}.

(** [const baseDir = targetPath || path.join(homedir(), "Desktop")] *)
Definition baseDir (h : Host) (o : CreateMarkdownOptions) : jsstring :=
  or_string (targetPath o) (path_join h (homedir h) (lit "Desktop")).

(** [const filePath = path.join(baseDir, fileName)] *)
Definition filePath (h : Host) (o : CreateMarkdownOptions) : jsstring :=
  path_join h (baseDir h o) (fileName (title o)).

(** The parameter defaults [template = "basic"] and [tags = []]. *)
Definition templateOf (o : CreateMarkdownOptions) : jsstring :=
  default (lit "basic") (template o).
Definition tagsOf (o : CreateMarkdownOptions) : list jsstring :=
  default [] (tags o).

(** Lines 150-159: the chain of [replace] calls is made on [content];
    a value that is not a string has no [replace] method. *)
Definition renderContent (h : Host) (o : CreateMarkdownOptions) : M jsstring :=
  match templateContent (templateOf o) with
  | VString content =>
      ret (render content (title o) (formattedDate (now h)) (tagsOf o))
  | VInherited _ | VUndefined =>
      throw (ErrorObj (lit "TypeError") (lit "content.replace is not a function"))
  end.

Definition createMarkdownFileHelper (h : Host) (o : CreateMarkdownOptions)
  : M jsstring :=
  try_catch
    (dirFound ← existsSync (baseDir h o);
     (if dirFound then ret tt else mkdirSync h (baseDir h o));;
     fileFound ← existsSync (filePath h o);
     if fileFound then
       showToast Failure (lit "File already exists") (fileName (title o));;
       ret []
     else
       content ← renderContent h o;
       writeFileSync h (filePath h o) content;;
       showToast Success (lit "Markdown file created")
         (fileName (title o) ++ lit " in " ++ path_basename h (baseDir h o));;
       openWithEditor h (filePath h o);;
       ret (filePath h o))
    (fun error =>
       console_error (lit "Error creating Markdown file:") error;;
       showToast Failure (lit "Failed to create Markdown file") (String_of error);;
       ret []).

(** ** The destructive actions (FileListItem.tsx, lines 56-104) *)

Record MarkdownFile := {
  path : jsstring;
  name : jsstring;
  fileTags : list jsstring;
  lastModified : N;
}.

(** [confirmAlert({ title, message, primaryAction: { title, style } })] *)
Definition confirmAlert (h : Host) (title message primaryTitle : jsstring)
    (destructive : bool) : M bool :=
  fun w =>
    (Returned (confirmAlert_answer h),
     record (ConfirmAlert title message primaryTitle destructive) w).

Definition confirmDelete (h : Host) (file : MarkdownFile) : M unit :=
  confirmed ← confirmAlert h (lit "Delete this file?")
    (lit "Are you sure you want to delete " ++ [dquote] ++ name file
       ++ [dquote] ++ lit "?")
    (lit "Delete") true;
  if confirmed then
    try_catch
      (unlinkSync h (path file);;
       showToast Success (lit "File deleted")
         (name file ++ lit " has been deleted");;
       revalidate)
      (fun error =>
         showFailureToast
           (OfObject [ ("title", lit "Error deleting file");
                       ("message", message_of error) ]%string)
           None)
  else ret tt.

(** [moveToTrash] of [../utils/fileOperations]: what it answers is the
    host's; when the answer is true the file has left its path. *)
Definition moveToTrash (h : Host) (file : jsstring) : M bool :=
  fun w =>
    match moveToTrash_result h file with
    | inl e => (Threw e, record (MoveToTrash file) w)
    | inr true =>
        (Returned true,
         {| files := delete file (files w); dirs := dirs w ∖ {[file]};
            trace := trace w ++ [MoveToTrash file] |})
    | inr false => (Returned false, record (MoveToTrash file) w)
    end.

Definition handleMoveToTrash (h : Host) (file : MarkdownFile) : M unit :=
  try_catch
    (success ← moveToTrash h (path file);
     if success then
       showToast Success (lit "File moved to trash")
         (name file ++ lit " has been moved to trash");;
       revalidate
     else throw (ErrorObj (lit "Error") (lit "Failed to move file to trash")))
    (fun error =>
       showFailureToast
         (OfObject [ ("title", lit "Error moving file to trash");
                     ("message", message_of error) ]%string)
         None).

(** ** A concrete host and world, for the examples *)

Definition sample_join (a b : jsstring) : jsstring := a ++ lit "/" ++ b.

(** The text after the last slash. *)
Fixpoint sample_basename (p : jsstring) : jsstring :=
  match p with
  | [] => []
  | c :: r => if includes r (lit "/") then sample_basename r
              else if c =? 47 then r else p
  end.

(** The parents of a path: its proper prefixes that end before a slash. *)
Fixpoint ancestors_from (seen_rev p : jsstring) : list jsstring :=
  match p with
  | [] => []
  | c :: r =>
      (if (c =? 47) && negb (bool_decide (seen_rev = [])) then [rev seen_rev]
       else [])
      ++ ancestors_from (c :: seen_rev) r
  end.

Definition sample_ancestors (p : jsstring) : list jsstring :=
  ancestors_from [] p.

Definition eperm (file : jsstring) : Thrown :=
  ErrorObj (lit "Error")
    (lit "EPERM: operation not permitted, unlink '" ++ file ++ lit "'").

Definition sampleHost : Host := {|
  homedir := lit "/Users/me";
  path_join := sample_join;
  path_basename := sample_basename;
  now := {| year := 2026; month := 11; day := 2 |};
  getPreferenceValues := inr {| defaultEditor := Some (lit "Typora") |};
  exec_error := fun _ => None;
  open_error := fun _ _ => None;
  mkdir_error := fun _ => None;
  write_error := fun _ => None;
  unlink_error := fun _ => None;
  mkdir_made := sample_ancestors;
  write_partial := fun _ _ => None;
  unlink_directory_error := eperm;
  confirmAlert_answer := true;
  moveToTrash_result := fun _ => inr true;
|}.

Definition commandNotFound : Thrown :=
  ErrorObj (lit "Error") (lit "Command failed").

Definition noOpener : Thrown :=
  ErrorObj (lit "Error") (lit "No application to open the file").

(** A host on which no application can be launched and the default
    opener fails as well. *)
Definition brokenOpenHost : Host := {|
  homedir := homedir sampleHost;
  path_join := sample_join;
  path_basename := sample_basename;
  now := now sampleHost;
  getPreferenceValues := getPreferenceValues sampleHost;
  exec_error := fun _ => Some commandNotFound;
  open_error := fun _ _ => Some noOpener;
  mkdir_error := fun _ => None;
  write_error := fun _ => None;
  unlink_error := fun _ => None;
  mkdir_made := sample_ancestors;
  write_partial := fun _ _ => None;
  unlink_directory_error := eperm;
  confirmAlert_answer := true;
  moveToTrash_result := fun _ => inr true;
|}.

(** A host on which no application can be launched and the default
    opener fails at its first call only. *)
Definition opened_before (tr : list Event) : bool :=
  existsb (fun ev => match ev with Open _ => true | _ => false end) tr.

Definition flakyOpenHost : Host := {|
  homedir := homedir sampleHost;
  path_join := sample_join;
  path_basename := sample_basename;
  now := now sampleHost;
  getPreferenceValues := getPreferenceValues sampleHost;
  exec_error := fun _ => Some commandNotFound;
  open_error := fun tr _ => if opened_before tr then None else Some noOpener;
  mkdir_error := fun _ => None;
  write_error := fun _ => None;
  unlink_error := fun _ => None;
  mkdir_made := sample_ancestors;
  write_partial := fun _ _ => None;
  unlink_directory_error := eperm;
  confirmAlert_answer := true;
  moveToTrash_result := fun _ => inr true;
|}.

(** A host whose [moveToTrash] answers false, and one whose
    [unlinkSync] is refused. *)
Definition refusingTrashHost : Host := {|
  homedir := homedir sampleHost;
  path_join := sample_join;
  path_basename := sample_basename;
  now := now sampleHost;
  getPreferenceValues := getPreferenceValues sampleHost;
  exec_error := fun _ => None;
  open_error := fun _ _ => None;
  mkdir_error := fun _ => None;
  write_error := fun _ => None;
  unlink_error := fun _ => None;
  mkdir_made := sample_ancestors;
  write_partial := fun _ _ => None;
  unlink_directory_error := eperm;
  confirmAlert_answer := true;
  moveToTrash_result := fun _ => inr false;
|}.

Definition notPermitted : Thrown :=
  ErrorObj (lit "Error")
    (lit "EACCES: permission denied, unlink '/notes/my-note.md'").

Definition lockedHost : Host := {|
  homedir := homedir sampleHost;
  path_join := sample_join;
  path_basename := sample_basename;
  now := now sampleHost;
  getPreferenceValues := getPreferenceValues sampleHost;
  exec_error := fun _ => None;
  open_error := fun _ _ => None;
  mkdir_error := fun _ => None;
  write_error := fun _ => None;
  unlink_error := fun _ => Some notPermitted;
  mkdir_made := sample_ancestors;
  write_partial := fun _ _ => None;
  unlink_directory_error := eperm;
  confirmAlert_answer := true;
  moveToTrash_result := fun _ => inr true;
|}.









Definition notesWorld : World := {|
  files := {[ lit "/notes/my-note.md" := lit "kept" ]};
  dirs := {[ lit "/notes" ]};
  trace := [];
|}.


Definition otherOptions : CreateMarkdownOptions := {|
  title := lit "Other";
  template := None;
  tags := None;
  targetPath := Some (lit "/notes");
|}.

Definition emptyTemplateOptions : CreateMarkdownOptions := {|
  title := lit "Other";
  template := Some (lit "empty");
  tags := None;
  targetPath := Some (lit "/notes");
|}.

Definition noteFile : MarkdownFile := {|
  path := lit "/notes/my-note.md";
  name := lit "my-note.md";
  fileTags := [lit "#work"];
  lastModified := 0;
|}.

(** ** Vocabulary of the statements *)

(** The options with another [targetPath]. *)
Definition withTargetPath (o : CreateMarkdownOptions) (t : option jsstring)
  : CreateMarkdownOptions :=
  {| title := title o; template := template o; tags := tags o;
     targetPath := t |}.

(** How often the refresh callback was invoked. *)
Fixpoint revalidations (tr : list Event) : nat :=
  match tr with
  | [] => 0
  | Revalidate :: r => S (revalidations r)
  | _ :: r => revalidations r
  end.

Definition is_failure_notice (ev : Event) : bool :=
  match ev with
  | ShowToast Failure _ _ => true
  | _ => false
  end.

(** The world once line 135-137 made sure of the directory. *)
Definition dirReady (h : Host) (o : CreateMarkdownOptions) (w : World) : World :=
  if fs_exists w (baseDir h o) then w
  else {| files := files w;
          dirs := {[baseDir h o]} ∪ list_to_set (mkdir_made h (baseDir h o))
                    ∪ dirs w;
          trace := trace w ++ [MkdirSync (baseDir h o)] |}.

Definition createdToast (h : Host) (o : CreateMarkdownOptions) : Event :=
  ShowToast Success (lit "Markdown file created")
    (fileName (title o) ++ lit " in " ++ path_basename h (baseDir h o)).

(** The world once the file was written and the success notification
    shown (lines 162-169). *)
Definition written (h : Host) (o : CreateMarkdownOptions) (content : jsstring)
    (w : World) : World :=
  record (createdToast h o)
    {| files := <[filePath h o := content]> (files w); dirs := dirs w;
       trace := trace w ++ [WriteFileSync (filePath h o) content] |}.

(** The modal of [confirmDelete]. *)
Definition deleteAlert (file : MarkdownFile) : Event :=
  ConfirmAlert (lit "Delete this file?")
    (lit "Are you sure you want to delete " ++ [dquote] ++ name file
       ++ [dquote] ++ lit "?")
    (lit "Delete") true.

(** * The rest of the sources *)

(** ** The exported tool (createMarkdown.ts, lines 187-190) *)

Record CreateMarkdownResult := { resultFilePath : jsstring }.

(** [const filePath = await createMarkdownFileHelper(options); return { filePath }] *)
Definition createMarkdown (h : Host) (options : CreateMarkdownOptions)
  : M CreateMarkdownResult :=
  created ← createMarkdownFileHelper h options;
  ret {| resultFilePath := created |}.

(** ** Vocabulary for traces *)

Definition is_toast (ev : Event) : bool :=
  match ev with
  | ShowToast _ _ _ => true
  | _ => false
  end.

Definition is_exec (ev : Event) : bool :=
  match ev with Exec _ => true | _ => false end.

Definition is_open (ev : Event) : bool :=
  match ev with Open _ => true | _ => false end.

Definition is_write (ev : Event) : bool :=
  match ev with WriteFileSync _ _ => true | _ => false end.

Definition is_launch (ev : Event) : bool := is_exec ev || is_open ev.

(** A call of the program that changes the file system. *)
Definition is_fs_call (ev : Event) : bool :=
  match ev with
  | MkdirSync _ | WriteFileSync _ _ | UnlinkSync _ | MoveToTrash _ => true
  | _ => false
  end.

(** How many events of a kind a trace holds. *)
Definition occurrences (kind : Event -> bool) (tr : list Event) : nat :=
  length (List.filter kind tr).

(** ** More sample hosts and worlds *)

(** The sample host with another editor preference and other answers to
    the launch commands and to the default opener. *)
Definition hostWith (editor : Thrown + Preferences)
    (execs : jsstring -> option Thrown)
    (opens : list Event -> jsstring -> option Thrown) : Host := {|
  homedir := homedir sampleHost;
  path_join := sample_join;
  path_basename := sample_basename;
  now := now sampleHost;
  getPreferenceValues := editor;
  exec_error := execs;
  open_error := opens;
  mkdir_error := fun _ => None;
  write_error := fun _ => None;
  unlink_error := fun _ => None;
  mkdir_made := sample_ancestors;
  write_partial := fun _ _ => None;
  unlink_directory_error := eperm;
  confirmAlert_answer := true;
  moveToTrash_result := fun _ => inr true;
|}.

Definition codePreferences : Preferences :=
  {| defaultEditor := Some (lit "Visual Studio Code") |}.

Definition noPreference : Preferences := {| defaultEditor := None |}.

(** The sample world with Typora installed at its usual place. *)
Definition typoraWorld : World := {|
  files := <[ typoraPath := lit "binary" ]> (files notesWorld);
  dirs := dirs notesWorld;
  trace := [];
|}.

(** ** Vocabulary for the runs of the creation *)

(** The world after the handler of [createMarkdownFileHelper] (lines
    175-183) dealt with the error [e] in the world [w]. *)
Definition failed (e : Thrown) (w : World) : World :=
  record (ShowToast Failure (lit "Failed to create Markdown file") (String_of e))
    (record (ConsoleError (lit "Error creating Markdown file:") e) w).

Definition notAFunction : Thrown :=
  ErrorObj (lit "TypeError") (lit "content.replace is not a function").

(** The content the creation writes when the template is [tpl]. *)
Definition contentOf (h : Host) (o : CreateMarkdownOptions) (tpl : jsstring)
  : jsstring :=
  render tpl (title o) (formattedDate (now h)) (tagsOf o).

(** The world with the file written, before the notification. *)
Definition fileWritten (h : Host) (o : CreateMarkdownOptions)
    (content : jsstring) (w : World) : World :=
  {| files := <[filePath h o := content]> (files w); dirs := dirs w;
     trace := trace w ++ [WriteFileSync (filePath h o) content] |}.

(** The world after a [mkdirSync] of the base directory that threw. *)
Definition mkdirThrown (h : Host) (o : CreateMarkdownOptions) (w : World)
  : World :=
  {| files := files w;
     dirs := list_to_set (mkdir_made h (baseDir h o)) ∪ dirs w;
     trace := trace w ++ [MkdirSync (baseDir h o)] |}.

(** The world after a [writeFileSync] of [content] that threw. *)
Definition writeThrown (h : Host) (o : CreateMarkdownOptions)
    (content : jsstring) (w : World) : World :=
  {| files := match write_partial h (filePath h o) content with
              | Some part => <[filePath h o := part]> (files w)
              | None => files w
              end;
     dirs := dirs w;
     trace := trace w ++ [WriteFileSync (filePath h o) content] |}.

(** The ways a run of [createMarkdownFileHelper] can go. *)
Inductive CreationRun (h : Host) (o : CreateMarkdownOptions) (w : World)
  : Outcome jsstring * World -> Prop :=
| RunMkdirFailed e :
    fs_exists w (baseDir h o) = false ->
    mkdir_error h (baseDir h o) = Some e ->
    CreationRun h o w (Returned [], failed e (mkdirThrown h o w))
| RunFileExists :
    fs_exists (dirReady h o w) (filePath h o) = true ->
    CreationRun h o w
      (Returned [],
       record (ShowToast Failure (lit "File already exists") (fileName (title o)))
         (dirReady h o w))
| RunNotAString :
    fs_exists (dirReady h o w) (filePath h o) = false ->
    (forall tpl, templateContent (templateOf o) <> VString tpl) ->
    CreationRun h o w (Returned [], failed notAFunction (dirReady h o w))
| RunWriteFailed tpl e :
    fs_exists (dirReady h o w) (filePath h o) = false ->
    templateContent (templateOf o) = VString tpl ->
    write_error h (filePath h o) = Some e ->
    CreationRun h o w
      (Returned [],
       failed e (writeThrown h o (contentOf h o tpl) (dirReady h o w)))
| RunLaunchFailed tpl e w2 :
    fs_exists (dirReady h o w) (filePath h o) = false ->
    templateContent (templateOf o) = VString tpl ->
    write_error h (filePath h o) = None ->
    openWithEditor h (filePath h o)
      (written h o (contentOf h o tpl) (dirReady h o w)) = (Threw e, w2) ->
    CreationRun h o w (Returned [], failed e w2)
| RunCreated tpl w2 :
    fs_exists (dirReady h o w) (filePath h o) = false ->
    templateContent (templateOf o) = VString tpl ->
    write_error h (filePath h o) = None ->
    openWithEditor h (filePath h o)
      (written h o (contentOf h o tpl) (dirReady h o w)) = (Returned tt, w2) ->
    CreationRun h o w (Returned (filePath h o), w2).

(** A host whose disk is full: directories can be made, no file can be
    written. *)
Definition diskFull : Thrown :=
  ErrorObj (lit "Error") (lit "ENOSPC: no space left on device, write").

Definition fullDiskHost : Host := {|
  homedir := homedir sampleHost;
  path_join := sample_join;
  path_basename := sample_basename;
  now := now sampleHost;
  getPreferenceValues := getPreferenceValues sampleHost;
  exec_error := fun _ => None;
  open_error := fun _ _ => None;
  mkdir_error := fun _ => None;
  write_error := fun _ => Some diskFull;
  unlink_error := fun _ => None;
  mkdir_made := sample_ancestors;
  write_partial := fun _ _ => Some [];
  unlink_directory_error := eperm;
  confirmAlert_answer := true;
  moveToTrash_result := fun _ => inr true;
|}.

Definition accessDenied : Thrown :=
  ErrorObj (lit "Error") (lit "EACCES: permission denied, mkdir '/vault'").

(** A host on which no directory can be made. *)
Definition readOnlyHost : Host := {|
  homedir := homedir sampleHost;
  path_join := sample_join;
  path_basename := sample_basename;
  now := now sampleHost;
  getPreferenceValues := getPreferenceValues sampleHost;
  exec_error := fun _ => None;
  open_error := fun _ _ => None;
  mkdir_error := fun _ => Some accessDenied;
  write_error := fun _ => None;
  unlink_error := fun _ => None;
  mkdir_made := fun _ => [];
  write_partial := fun _ _ => None;
  unlink_directory_error := eperm;
  confirmAlert_answer := true;
  moveToTrash_result := fun _ => inr true;
|}.

Definition vaultOptions : CreateMarkdownOptions := {|
  title := lit "Plan 2027";
  template := Some (lit "project");
  tags := Some [lit "work"];
  targetPath := Some (lit "/vault");
|}.

Definition inheritedKeyOptions : CreateMarkdownOptions := {|
  title := lit "Other";
  template := Some (lit "constructor");
  tags := None;
  targetPath := Some (lit "/notes");
|}.

(** ** Templates as pieces *)

(** A template read as fixed text with slots. *)
Inductive Piece :=
| Text (s : jsstring)
| TitleSlot
| DateSlot
| TagsSlot.

(** The pieces with the three slots filled by the given texts. *)
Definition filled (title date tags : jsstring) (ps : list Piece) : jsstring :=
  concat ((fun p => match p with
                    | Text s => s
                    | TitleSlot => title
                    | DateSlot => date
                    | TagsSlot => tags
                    end) <$> ps).

(** The template text of the pieces: every slot holds its placeholder. *)
Definition source (ps : list Piece) : jsstring :=
  filled (lit "{{title}}") (lit "{{date}}") (lit "{{tags}}") ps.

Definition brace_free (s : jsstring) : Prop := Forall (fun c => c <> lbrace) s.

Definition text_brace_free (p : Piece) : Prop :=
  match p with
  | Text s => brace_free s
  | _ => True
  end.

Definition basic_pieces : list Piece :=
  [ Text (lit "# "); TitleSlot;
    Text ([10; 10] ++ lit "Created: "); DateSlot;
    Text ([10] ++ lit "Tags: "); TagsSlot;
    Text ([10; 10] ++ lit "## Content" ++ [10; 10]) ].

Definition meeting_pieces : list Piece :=
  [ Text (lit "# Meeting: "); TitleSlot;
    Text ([10; 10] ++ lit "Date: "); DateSlot;
    Text ([10] ++ lit "Participants: " ++ [10] ++ lit "Tags: "); TagsSlot;
    Text (skipn 66 tpl_meeting) ].

Definition blog_pieces : list Piece :=
  [ Text (lit "---" ++ [10] ++ lit "title: " ++ [dquote]); TitleSlot;
    Text ([dquote; 10] ++ lit "date: " ++ [dquote]); DateSlot;
    Text ([dquote; 10] ++ lit "tags: ["); TagsSlot;
    Text (lit "]" ++ [10] ++ lit "draft: true" ++ [10] ++ lit "---"
            ++ [10; 10] ++ lit "# ");
    TitleSlot;
    Text ([10; 10] ++ lit "## Introduction" ++ [10; 10]) ].

Definition project_pieces : list Piece :=
  [ Text (lit "# Project: "); TitleSlot;
    Text ([10; 10] ++ lit "Start Date: "); DateSlot;
    Text ([10] ++ lit "Status: Planning" ++ [10] ++ lit "Tags: "); TagsSlot;
    Text (skipn 74 tpl_project) ].

(** The templates with text, each with its pieces. *)
Definition template_pieces : list (jsstring * list Piece) :=
  [ (tpl_basic, basic_pieces); (tpl_meeting, meeting_pieces);
    (tpl_blog, blog_pieces); (tpl_project, project_pieces) ].

(** No match of [pat] can begin in [a], whatever follows [a]. *)
Definition inert (pat a : jsstring) : Prop :=
  forall l c t s, a = l ++ c :: t -> startsWith (c :: t ++ s) pat = false.


(** ** Reading a date text back *)

(** The number written by decimal digits. *)
Definition number_of (s : jsstring) : N :=
  fold_left (fun acc c => 10 * acc + (c - 48)) s 0.

(** ** Titles with the same filename *)

(** Two units the filename derivation does not tell apart: equal units,
    two units that are no letters or digits, or a letter in its two
    cases. *)
Definition unit_alike (a b : N) : Prop :=
  a = b
  \/ (is_ascii_alnum a = false /\ is_ascii_alnum b = false)
  \/ (is_upper a = true /\ b = a + 32)
  \/ (is_upper b = true /\ a = b + 32).

(** The hash sign of a tag. *)
Definition hash_unit : N := 35.

(** * The action panels and the list item

    The components of [ActionComponents.tsx] and [FileListItem.tsx]
    return element trees; they are modelled by the data of these trees:
    an action by its title, icon, shortcut, style and handler, a panel by
    its sections. *)

Inductive Modifier := Cmd | Shift | Ctrl.

Record Shortcut := { modifiers : list Modifier; key : jsstring }.

(** What the [onAction] of an action does: a callback of the props, a
    function of the component, or what a ready-made action of the host
    does. *)
Inductive Handler :=
| CallShowCreateFileForm
| CallRevalidate
| CallLoadMoreFiles
| CallShowTagSearchList
| CallSetSelectedTag (tag : option jsstring)
| CallSetShowColorTags (show : bool)
| CallSetCurrentPage (page : Z)
| CallOpenWithEditor (file : jsstring)
| CallExec (command : jsstring)
| CallHandleMoveToTrash
| CallConfirmDelete
| CallOpenCommandPreferences
| HostOpenWith (file : jsstring)
| HostShowInFinder (file : jsstring)
| HostCopyToClipboard (content : jsstring).

Record ActionItem := {
  actionTitle : option jsstring;
  icon : option jsstring;
  shortcut : option Shortcut;
  destructive : bool;
  onAction : Handler;
}.

Definition action (title icon : string) (sc : option Shortcut)
    (handler : Handler) : ActionItem :=
  {| actionTitle := Some (lit title); icon := Some (lit icon);
     shortcut := sc; destructive := false; onAction := handler |}.

Definition keys (mods : list Modifier) (k : string) : option Shortcut :=
  Some {| modifiers := mods; key := lit k |}.

(** [selectedTag && ...]: the tag is a string or null, and the empty
    string is falsy. *)
Definition tagSelected (selectedTag : option jsstring) : bool :=
  match selectedTag with
  | Some (_ :: _) => true
  | Some [] | None => false
  end.

(** The three actions about tags that both panels have
    (ActionComponents.tsx, lines 31-50; FileListItem.tsx, lines 225-244). *)
Definition clearTagFilter : ActionItem :=
  action "Clear Tag Filter" "XMarkCircle" (keys [Cmd; Shift] "t")
    (CallSetSelectedTag None).

Definition toggleColorTags (showColorTags : bool) : ActionItem :=
  action (if showColorTags then "Hide Colored Tags" else "Show Colored Tags")
    (if showColorTags then "EyeDisabled" else "Eye")
    (keys [Cmd] "e") (CallSetShowColorTags (negb showColorTags)).

Definition tagActions (showColorTags : bool) (selectedTag : option jsstring)
  : list ActionItem :=
  [ action "Browse Tags" "Tag" (keys [Cmd] "t") CallShowTagSearchList ]
  ++ (if tagSelected selectedTag then [clearTagFilter] else [])
  ++ [ toggleColorTags showColorTags ].

(** [CommonActions] (ActionComponents.tsx, lines 15-54): one section. *)
Definition CommonActions (showColorTags : bool) (selectedTag : option jsstring)
  : list (list ActionItem) :=
  [ [ action "Create New Markdown File" "NewDocument" None
        CallShowCreateFileForm;
      action "Refresh List" "RotateClockwise" None CallRevalidate;
      action "Load More Files" "Plus" None CallLoadMoreFiles ]
    ++ tagActions showColorTags selectedTag ].

(** [LoadMoreAction] (ActionComponents.tsx, lines 56-62): a panel with
    one action outside any section. *)
Definition LoadMoreAction : list ActionItem :=
  [ action "Load More Files" "Plus" None CallLoadMoreFiles ].

(** The numbers of JavaScript are IEEE doubles.  The page numbers are
    taken to be integers; [to_double z] is the double an integer result
    [z] is rounded to (to the nearest, ties to the even one): [z]
    itself up to [2^53], a multiple of a power of two beyond.  The
    results are taken to stay below [2^1024], where a double is finite. *)
Definition to_double (z : Z) : Z :=
  let m := Z.abs z in
  if (m <=? 2 ^ 53)%Z then z
  else
    let unit := (2 ^ (Z.log2 m - 52))%Z in
    let q := (m / unit)%Z in
    let r := (m mod unit)%Z in
    let q' :=
      if (2 * r <? unit)%Z then q
      else if (unit <? 2 * r)%Z then (q + 1)%Z
      else if Z.even q then q else (q + 1)%Z in
    (Z.sgn z * (q' * unit))%Z.

(** [paginationActions] (FileListItem.tsx, lines 117-136) *)
Definition paginationActions (currentPage totalPages : Z) : list ActionItem :=
  (if (0 <? currentPage)%Z then
     [ action "Previous Page" "ArrowLeft" (keys [Cmd] "arrowLeft")
         (CallSetCurrentPage (to_double (currentPage - 1))) ]
   else [])
  ++ (if (currentPage <? to_double (totalPages - 1))%Z then
        [ action "Next Page" "ArrowRight" (keys [Cmd] "arrowRight")
            (CallSetCurrentPage (to_double (currentPage + 1))) ]
      else []).

Record FileListItemProps := {
  file : MarkdownFile;
  showColorTags : bool;
  currentPage : Z;
  totalPages : Z;
  markdownDir : jsstring;
  selectedTag : option jsstring;
}.

(** [`open "${file.path}"`] *)
Definition openCommand (p : jsstring) : jsstring :=
  lit "open " ++ [dquote] ++ p ++ [dquote].

(** The action panel of a list item (FileListItem.tsx, lines 182-274). *)
Definition itemActions (props : FileListItemProps) : list (list ActionItem) :=
  let p := path (file props) in
  [ [ action "Open with Editor" "BlankDocument" None (CallOpenWithEditor p);
      action "Open in Default App" "Document" (keys [Cmd] "o")
        (CallExec (openCommand p));
      {| actionTitle := None; icon := None; shortcut := keys [Cmd; Shift] "o";
         destructive := false; onAction := HostOpenWith p |};
      {| actionTitle := None; icon := None; shortcut := keys [Cmd] "f";
         destructive := false; onAction := HostShowInFinder p |};
      {| actionTitle := Some (lit "Copy Path"); icon := None;
         shortcut := keys [Cmd; Shift] "c";
         destructive := false; onAction := HostCopyToClipboard p |} ];
    [ action "Create a New Markdown File" "NewDocument" (keys [Cmd] "n")
        CallShowCreateFileForm;
      action "Refresh List" "RotateClockwise" (keys [Cmd] "r") CallRevalidate;
      action "Load More Files" "Plus" (keys [Cmd; Shift] "m")
        CallLoadMoreFiles ];
    tagActions (showColorTags props) (selectedTag props);
    [ {| actionTitle := Some (lit "Move to Trash"); icon := Some (lit "Trash");
         shortcut := keys [Ctrl] "x"; destructive := true;
         onAction := CallHandleMoveToTrash |};
      {| actionTitle := Some (lit "Delete File");
         icon := Some (lit "DeleteDocument");
         shortcut := keys [Ctrl; Cmd] "x"; destructive := true;
         onAction := CallConfirmDelete |} ];
    [ action "Open Extension Preferences" "Gear" (keys [Cmd; Shift] "p")
        CallOpenCommandPreferences ];
    paginationActions (currentPage props) (totalPages props) ].

(** The keys of a shortcut, the modifiers in any order. *)
Definition chord (s : Shortcut) : bool * bool * bool * jsstring :=
  (existsb (fun m => match m with Cmd => true | _ => false end) (modifiers s),
   existsb (fun m => match m with Shift => true | _ => false end) (modifiers s),
   existsb (fun m => match m with Ctrl => true | _ => false end) (modifiers s),
   key s).

(** The chords of the actions of a panel that have a shortcut. *)
Definition chords (panel : list (list ActionItem))
  : list (bool * bool * bool * jsstring) :=
  omap (fun a => chord <$> shortcut a) (concat panel).

(** The page an action goes to, when it changes the page. *)
Definition pageTarget (a : ActionItem) : option Z :=
  match onAction a with
  | CallSetCurrentPage page => Some page
  | _ => None
  end.

(** ** The list item (FileListItem.tsx, lines 106-180) *)

Inductive TagColor := Tint (color : jsstring) | SecondaryText.

Inductive Accessory :=
| TextAccessory (text tooltip : jsstring)
| TagAccessory (value : jsstring) (color : option TagColor)
    (tooltip : option jsstring).

(** The helpers the component imports from files that are not among
    the sources at hand ([sortTags], [isSystemTag], [getSystemTag],
    [getTagTintColor], [formatDate], [MAX_VISIBLE_TAGS]) and from Node
    and the language ([path.relative], which may throw, and
    [Date.prototype.toLocaleString]), as parameters.  [tagTint tag]
    stands for [getTagTintColor(isSystemTag(tag), getSystemTag(tag))];
    [MAX_VISIBLE_TAGS] is a count. *)
Record ListHelpers := {
  sortTags : list jsstring -> list jsstring;
  isSystemTag : jsstring -> bool;
  tagTint : jsstring -> jsstring;
  formatDate : N -> jsstring;
  toLocaleString : N -> jsstring;
  path_relative : jsstring -> jsstring -> Thrown + jsstring;
  MAX_VISIBLE_TAGS : nat;
}.

(** A count in a template literal: its decimal digits. *)
Definition decimal (n : nat) : jsstring :=
  lit (NilZero.string_of_uint (Nat.to_uint n)).

(** [getRelativePath] (lines 107-114) *)
Definition getRelativePath (u : ListHelpers) (props : FileListItemProps)
  : jsstring :=
  match markdownDir props with
  | [] => path (file props)
  | _ :: _ =>
      match path_relative u (markdownDir props) (path (file props)) with
      | inr relative => relative
      | inl _ => path (file props)
      end
  end.

(** The accessory of one visible tag (lines 158-168). *)
Definition tagAccessory (u : ListHelpers) (showColorTags : bool)
    (tag : jsstring) : Accessory :=
  TagAccessory tag
    (if showColorTags && isSystemTag u tag then Some (Tint (tagTint u tag))
     else None)
    None.

(** The accessory that stands for the hidden tags (lines 169-179). *)
Definition hiddenAccessory (count : nat) (hidden : list jsstring) : Accessory :=
  TagAccessory (lit "+" ++ decimal count) (Some SecondaryText)
    (Some (decimal count ++ lit " more tags: " ++ join (lit ", ") hidden)).

(** The accessories of the item (lines 138-180).  [hiddenTagsCount] is a
    difference of lengths of which the second is at most the first. *)
Definition accessories (u : ListHelpers) (props : FileListItemProps)
  : list Accessory :=
  let sortedTags := sortTags u (fileTags (file props)) in
  let visibleTags := take (MAX_VISIBLE_TAGS u) sortedTags in
  let hiddenTagsCount := (length sortedTags - length visibleTags)%nat in
  [ TextAccessory (formatDate u (lastModified (file props)))
      (lit "Last modified: " ++ toLocaleString u (lastModified (file props))) ]
  ++ (tagAccessory u (showColorTags props) <$> visibleTags)
  ++ (if (0 <? hiddenTagsCount)%nat then
        [ hiddenAccessory hiddenTagsCount
            (drop (MAX_VISIBLE_TAGS u) sortedTags) ]
      else []).

Record ListItem := {
  itemId : jsstring;
  itemTitle : jsstring;
  itemSubtitle : jsstring;
  itemAccessories : list Accessory;
  itemPanel : list (list ActionItem);
}.

(** [FileListItem] (lines 148-277) *)
Definition FileListItem (u : ListHelpers) (props : FileListItemProps)
  : ListItem :=
  {| itemId := path (file props);
     itemTitle := name (file props);
     itemSubtitle := getRelativePath u props;
     itemAccessories := accessories u props;
     itemPanel := itemActions props |}.

(** The tags an accessory list shows by themselves. *)
Definition shownTags (accs : list Accessory) : list jsstring :=
  omap (fun a => match a with
                 | TagAccessory value _ None => Some value
                 | _ => None
                 end) accs.

Definition sampleHelpers : ListHelpers := {|
  sortTags := fun tags => tags;
  isSystemTag := fun tag => jsstring_eqb tag (lit "#important");
  tagTint := fun _ => lit "Red";
  formatDate := fun _ => lit "today";
  toLocaleString := fun _ => lit "11/2/2026, 9:00:00 AM";
  path_relative := fun _ p => inr p;
  MAX_VISIBLE_TAGS := 3;
|}.

Definition sampleProps : FileListItemProps := {|
  file := {| path := lit "/notes/my-note.md"; name := lit "my-note.md";
             fileTags := [lit "#a"; lit "#b"; lit "#c"; lit "#d"; lit "#e"];
             lastModified := 0 |};
  showColorTags := true;
  currentPage := 1;
  totalPages := 3;
  markdownDir := lit "/notes";
  selectedTag := Some (lit "#a");
|}.

(** * Properties *)

(** ** Code units and the filename *)

Lemma class_az09_i_alnum (c : N) : class_az09_i c = is_ascii_alnum c.
Proof.
  unfold class_az09_i, canonicalize, is_ascii_alnum, is_lower, is_upper, is_digit.
  destruct (97 <=? c) eqn:H1; destruct (c <=? 122) eqn:H2; simpl;
    repeat match goal with
           | |- context [?a <=? ?b] => destruct (N.leb_spec a b)
           end; simpl; try reflexivity; try lia;
    apply N.leb_le in H1 || apply N.leb_gt in H1;
    apply N.leb_le in H2 || apply N.leb_gt in H2; lia.
Qed.

Lemma replace_from_not_az09 (before_rev s : jsstring) :
  replace_from match_not_az09 (lit "-") before_rev 0 s
  = (fun c => if is_ascii_alnum c then c else hyphen) <$> s.
Proof.
  revert before_rev. induction s as [|c s IH]; intros before_rev; [reflexivity|].
  cbn [replace_from match_not_az09 fmap list_fmap].
  rewrite class_az09_i_alnum.
  destruct (is_ascii_alnum c); cbn; now rewrite IH.
Qed.

(** The replacement leaves only ASCII letters, digits and hyphens, so
    [toLowerCase] is applied to units below 128 only. *)
Lemma replaceNonAlnum_ascii (title : jsstring) :
  Forall (fun c => c < 128) (replaceNonAlnum title).
Proof.
  unfold replaceNonAlnum, replace_g. rewrite replace_from_not_az09.
  induction title as [|c t IH]; cbn [fmap list_fmap]; constructor; [|exact IH].
  destruct (is_ascii_alnum c) eqn:E; [|unfold hyphen; lia].
  unfold is_ascii_alnum, is_lower, is_upper, is_digit in E.
  destruct (N.leb_spec c 122); [lia|].
  destruct (N.leb_spec c 90); [lia|].
  destruct (N.leb_spec c 57); [lia|].
  rewrite !andb_false_r in E. discriminate.
Qed.

Lemma lower_unit_name_unit (c : N) :
  is_name_unit (if is_ascii_alnum c then lower_unit c else hyphen) = true.
Proof.
  unfold is_name_unit, is_ascii_alnum, lower_unit, is_lower, is_upper, is_digit, hyphen.
  destruct (N.leb_spec 97 c), (N.leb_spec c 122), (N.leb_spec 65 c),
    (N.leb_spec c 90), (N.leb_spec 48 c), (N.leb_spec c 57); cbn;
    repeat match goal with
           | |- context [?a <=? ?b] => destruct (N.leb_spec a b)
           | |- context [?a =? ?b] => destruct (N.eqb_spec a b)
           end; cbn; try reflexivity; lia.
Qed.

Lemma lower_unit_idem (c : N) :
  is_name_unit c = true -> lower_unit c = c.
Proof.
  unfold is_name_unit, lower_unit, is_lower, is_upper, is_digit, hyphen.
  intros H. destruct (N.leb_spec 65 c), (N.leb_spec c 90); cbn; try reflexivity.
  destruct (N.leb_spec 97 c); [lia|]. destruct (N.leb_spec c 57); [lia|].
  destruct (N.eqb_spec c 45); [lia|].
  cbn in H. rewrite andb_false_r in H. discriminate.
Qed.

Lemma sanitizedTitle_map (title : jsstring) :
  sanitizedTitle title
  = (fun c => if is_ascii_alnum c then lower_unit c else hyphen) <$> title.
Proof.
  unfold sanitizedTitle, replaceNonAlnum, replace_g, toLowerCase.
  rewrite replace_from_not_az09, <- list_fmap_compose.
  apply list_fmap_ext. intros _ c _. cbn.
  destruct (is_ascii_alnum c); reflexivity.
Qed.

(** C4. For every title, the derived filename is the title with every
    code unit that is not an ASCII letter or digit replaced by a hyphen
    and the letters lowercased, followed by [.md]; the part before the
    extension has the length of the title and only units of [a-z0-9-],
    and the whole name is left unchanged by lowercasing. *)
Theorem fileName_derivation (title : jsstring) :
  fileName title
  = ((fun c => if is_ascii_alnum c then lower_unit c else hyphen) <$> title)
      ++ lit ".md"
  /\ (exists stem,
        fileName title = stem ++ lit ".md"
        /\ length stem = length title
        /\ Forall (fun c => is_name_unit c = true) stem)
  /\ toLowerCase (fileName title) = fileName title.
Proof.
  unfold fileName. rewrite sanitizedTitle_map.
  set (f := fun c => if is_ascii_alnum c then lower_unit c else hyphen).
  assert (Hall : Forall (fun c => is_name_unit c = true) (f <$> title)).
  { apply Forall_fmap, Forall_forall. intros c _. apply lower_unit_name_unit. }
  split; [reflexivity|]. split.
  - exists (f <$> title). split; [reflexivity|]. split; [apply length_fmap|exact Hall].
  - unfold toLowerCase. rewrite fmap_app. f_equal.
    induction Hall as [|c l Hc _ IH]; [reflexivity|].
    cbn [fmap list_fmap]. rewrite lower_unit_idem by exact Hc. f_equal. exact IH.
Qed.

(** ** Replacement by a literal pattern *)

Lemma startsWith_app (pat s : jsstring) : startsWith (pat ++ s) pat = true.
Proof.
  induction pat as [|x p IH]; [reflexivity|].
  cbn. now rewrite N.eqb_refl, IH.
Qed.

Lemma startsWith_head (x c : N) (p s : jsstring) :
  c <> x -> startsWith (c :: s) (x :: p) = false.
Proof.
  intros H. cbn. destruct (N.eqb_spec x c); [congruence|reflexivity].
Qed.



Lemma getSubstitution_dollar_free (matched before after repl : jsstring) :
  dollar_free repl -> getSubstitution matched before after repl = repl.
Proof.
  induction 1 as [|c r Hc _ IH]; [reflexivity|].
  cbn [getSubstitution]. destruct (N.eqb_spec c dollar); [contradiction|].
  now rewrite IH.
Qed.


Section Literal.
Variables pat repl : jsstring.

(** Stepping over the rest of a match. *)
Lemma replace_from_skip (x s before_rev : jsstring) :
  replace_from (match_literal pat) repl before_rev (length x) (x ++ s)
  = match s with
    | [] => []
    | _ => replace_from (match_literal pat) repl (rev x ++ before_rev) 0 s
    end.
Proof.
  revert before_rev. induction x as [|c x IH]; intros before_rev.
  - cbn. now destruct s.
  - cbn [length app replace_from]. rewrite IH.
    destruct s; [reflexivity|]. cbn [rev]. now rewrite <- app_assoc.
Qed.

Lemma replace_from_nil (before_rev before_rev' : jsstring) (k : nat) :
  replace_from (match_literal pat) repl before_rev k []
  = replace_from (match_literal pat) repl before_rev' 0 [].
Proof. reflexivity. Qed.

(** At a match: the expanded replacement, then the rest. *)
Lemma replace_from_match (s before_rev : jsstring) :
  pat <> [] ->
  replace_from (match_literal pat) repl before_rev 0 (pat ++ s)
  = getSubstitution pat (rev before_rev) s repl
      ++ replace_from (match_literal pat) repl (rev pat ++ before_rev) 0 s.
Proof.
  intros Hne. destruct pat as [|x p] eqn:E; [congruence|]. rewrite <- E.
  assert (Hs : pat ++ s = x :: (p ++ s)) by now rewrite E.
  rewrite Hs at 1. cbn [replace_from]. rewrite <- Hs.
  unfold match_literal at 1. rewrite startsWith_app.
  rewrite take_app_length, drop_app_length. f_equal.
  replace (Nat.pred (length pat)) with (length p) by now rewrite E.
  rewrite replace_from_skip.
  destruct s; [reflexivity|]. rewrite E. cbn [rev]. now rewrite <- app_assoc.
Qed.


(** Text in which no match can begin is copied. *)
Lemma replace_from_through (a s before_rev : jsstring) :
  (forall l c t, a = l ++ c :: t -> startsWith (c :: t ++ s) pat = false) ->
  replace_from (match_literal pat) repl before_rev 0 (a ++ s)
  = a ++ replace_from (match_literal pat) repl (rev a ++ before_rev) 0 s.
Proof.
  revert before_rev. induction a as [|c a IH]; intros before_rev H.
  - reflexivity.
  - cbn [app replace_from]. unfold match_literal at 1.
    rewrite (H [] c a eq_refl). f_equal.
    rewrite IH.
    + cbn [rev]. now rewrite <- app_assoc.
    + intros l c' t ->. apply (H (c :: l) c' t). reflexivity.
Qed.

(** With a replacement that GetSubstitution copies the scan is the
    plain substitution. *)
Lemma replace_from_copied (before_rev s : jsstring) (k : nat) :
  (forall m b a, getSubstitution m b a repl = repl) ->
  replace_from (match_literal pat) repl before_rev k s
  = substitute_from pat repl k s.
Proof.
  intros Hr. revert before_rev k.
  induction s as [|c s IH]; intros before_rev k; [reflexivity|].
  cbn [replace_from substitute_from]. destruct k as [|k]; [|apply IH].
  unfold match_literal. destruct (startsWith (c :: s) pat).
  - rewrite Hr. now rewrite IH.
  - now rewrite IH.
Qed.

Lemma replace_from_substitute (before_rev s : jsstring) (k : nat) :
  dollar_free repl ->
  replace_from (match_literal pat) repl before_rev k s
  = substitute_from pat repl k s.
Proof.
  intros Hr. apply replace_from_copied. intros m b a.
  now apply getSubstitution_dollar_free.
Qed.
End Literal.

Lemma replace_g_substitute (pat repl s : jsstring) :
  dollar_free repl ->
  replace_g (match_literal pat) repl s = substitute pat repl s.
Proof. apply replace_from_substitute. Qed.


(** ** Occurrences *)




(** ** One pass over text that holds the title *)




Example formattedDate_sample :
  formattedDate (now sampleHost) = lit "2026-11-02".
Proof. reflexivity. Qed.

(** ** The title placeholder *)




(** The four patterns are left out for a reason: a title that holds
    [$&] gets the placeholder back in its place. *)
Example title_dollar_pattern_expanded :
  render tpl_basic (lit "A$&B") (lit "2026-11-02") []
  = unlines [ lit "# A{{title}}B"; [];
              lit "Created: 2026-11-02";
              lit "Tags: "; [];
              lit "## Content"; [] ]
  /\ dollar_pattern (lit "A$&B") = true.
Proof. split; reflexivity. Qed.

(** ** The tags placeholder *)

Lemma formatTag_hash (tag : jsstring) :
  startsWith (formatTag tag) (lit "#") = true.
Proof.
  unfold formatTag. destruct (startsWith tag (lit "#")) eqn:E; [exact E|].
  cbn. reflexivity.
Qed.

Lemma formattedTags_hash (tags : list jsstring) :
  Forall (fun t => startsWith t (lit "#") = true) (formattedTags tags).
Proof.
  apply Forall_fmap, Forall_forall. intros t _. apply formatTag_hash.
Qed.

Lemma tagsText_join (ft : list jsstring) : tagsText ft = join (lit ", ") ft.
Proof. now destruct ft. Qed.

Lemma join_dollar_free (sep : jsstring) (l : list jsstring) :
  dollar_free sep -> Forall dollar_free l -> dollar_free (join sep l).
Proof.
  intros Hs. induction 1 as [|x l Hx Hl IH]; [constructor|].
  destruct l as [|y l]; [exact Hx|].
  change (join sep (x :: y :: l)) with (x ++ sep ++ join sep (y :: l)).
  unfold dollar_free in *. rewrite !Forall_app. auto.
Qed.

(** With tags free of dollars, the tags pass is the plain substitution
    of the joined, hash-prefixed tags (the empty text for no tag). *)
Lemma tags_substituted (tags : list jsstring) (content : jsstring) :
  Forall dollar_free tags ->
  replaceTags (tagsText (formattedTags tags)) content
  = substitute (lit "{{tags}}") (join (lit ", ") (formattedTags tags)) content.
Proof.
  intros H. unfold replaceTags. rewrite tagsText_join.
  apply replace_g_substitute, join_dollar_free.
  - repeat constructor; discriminate.
  - apply Forall_fmap. eapply Forall_impl; [exact H|].
    intros t Ht. unfold compose, formatTag.
    destruct (startsWith t (lit "#")); [exact Ht|].
    constructor; [discriminate|exact Ht].
Qed.

(** The example of the specification. *)
Lemma render_basic_my_note :
  render tpl_basic (lit "My Note") (lit "2026-11-02") [lit "work"; lit "#urgent"]
  = unlines [ lit "# My Note"; [];
              lit "Created: 2026-11-02";
              lit "Tags: #work, #urgent"; [];
              lit "## Content"; [] ].
Proof. reflexivity. Qed.

(** C5 at a tag with a dollar pattern. The tag [$&] is normalized to
    [#$&], but the tags pass expands [$&] into the matched placeholder:
    the content holds [Tags: #{{tags}}] and not the normalized tag. *)
Theorem tags_dollar_pattern_expanded :
  formattedTags [lit "$&"] = [lit "#$&"]
  /\ render tpl_basic (lit "My Note") (lit "2026-11-02") [lit "$&"]
     = unlines [ lit "# My Note"; [];
                 lit "Created: 2026-11-02";
                 lit "Tags: #{{tags}}"; [];
                 lit "## Content"; [] ]
  /\ render tpl_basic (lit "My Note") (lit "2026-11-02") [lit "$&"]
     <> substitute (lit "{{tags}}") (join (lit ", ") (formattedTags [lit "$&"]))
          (replaceDate (lit "2026-11-02") (replaceTitle (lit "My Note") tpl_basic)).
Proof.
  split; [reflexivity|]. split; [reflexivity|].
  vm_compute. discriminate.
Qed.

(** ** Move to trash and permanent delete *)

Lemma revalidations_app (a b : list Event) :
  revalidations (a ++ b) = (revalidations a + revalidations b)%nat.
Proof.
  induction a as [|ev a IH]; [reflexivity|].
  destruct ev; cbn; rewrite IH; reflexivity.
Qed.

(** C8. Whatever [moveToTrash] answers, the action returns normally.
    On a true answer the file has left its path, the success
    notification is shown and the refresh callback is invoked once.  A
    false answer is handled as a thrown error: no success notification,
    no refresh, no file changed, and a failure notification.  That
    notification does not carry the message of the error, though:
    [showFailureToast] is given the object [{ title, message }] as the
    error and no options, so what is shown has the title
    [Something went wrong] and the message [[object Object]], whatever
    the error was. *)
Theorem handleMoveToTrash_outcome (h : Host) (file : MarkdownFile) (w : World) :
  let r := handleMoveToTrash h file w in
  r.1 = Returned tt
  /\ files r.2
     = match moveToTrash_result h (path file) with
       | inr true => delete (path file) (files w)
       | _ => files w
       end
  /\ trace r.2
     = trace w ++ MoveToTrash (path file) ::
         match moveToTrash_result h (path file) with
         | inr true =>
             [ ShowToast Success (lit "File moved to trash")
                 (name file ++ lit " has been moved to trash");
               Revalidate ]
         | _ =>
             [ ShowToast Failure (lit "Something went wrong")
                 (lit "[object Object]") ]
         end
  /\ revalidations (trace r.2)
     = (revalidations (trace w)
        + match moveToTrash_result h (path file) with
          | inr true => 1
          | _ => 0
          end)%nat.
Proof.
  unfold handleMoveToTrash, try_catch, bind, moveToTrash.
  destruct (moveToTrash_result h (path file)) as [e|[|]]; cbn;
    rewrite ?revalidations_app; cbn;
    rewrite <- ?app_assoc; cbn; repeat split; lia.
Qed.

(** The file of the sample world on a host whose [moveToTrash] answers
    false: the text [Failed to move file to trash] is in neither part
    of the notification. *)
Example handleMoveToTrash_refused :
  let r := handleMoveToTrash refusingTrashHost noteFile notesWorld in
  trace r.2
  = [ MoveToTrash (lit "/notes/my-note.md");
      ShowToast Failure (lit "Something went wrong") (lit "[object Object]") ]
  /\ includes (lit "Something went wrong") (lit "Failed to move file to trash")
     = false
  /\ includes (lit "[object Object]") (lit "Failed to move file to trash")
     = false
  /\ files r.2 !! lit "/notes/my-note.md" = Some (lit "kept").
Proof. vm_compute. repeat split. Qed.

(** C9. The modal is shown first, with the destructive style.  Without
    the confirmation nothing else happens: no removal, no file changed.
    After the confirmation the removal is called; when it succeeds the
    file is gone, the success notification is shown and the refresh
    callback is invoked once; when it throws, the files are unchanged
    and the refresh callback is not invoked.  The failure notification
    shown then does not carry the message of the error:
    [showFailureToast] is given the object [{ title, message }] as the
    error and no options, so its title is [Something went wrong] and
    its message [[object Object]]. *)
Theorem confirmDelete_outcome (h : Host) (file : MarkdownFile) (w : World) :
  let r := confirmDelete h file w in
  let removed :=
    match unlink_error h (path file), files w !! path file with
    | None, Some _ => true
    | _, _ => false
    end in
  r.1 = Returned tt
  /\ (if confirmAlert_answer h then
        if removed then
          files r.2 = delete (path file) (files w)
          /\ trace r.2
             = trace w ++ [ deleteAlert file; UnlinkSync (path file);
                            ShowToast Success (lit "File deleted")
                              (name file ++ lit " has been deleted");
                            Revalidate ]
          /\ revalidations (trace r.2) = S (revalidations (trace w))
        else
          files r.2 = files w
          /\ trace r.2
             = trace w ++ [ deleteAlert file; UnlinkSync (path file);
                            ShowToast Failure (lit "Something went wrong")
                              (lit "[object Object]") ]
          /\ revalidations (trace r.2) = revalidations (trace w)
      else
        files r.2 = files w
        /\ trace r.2 = trace w ++ [deleteAlert file]
        /\ revalidations (trace r.2) = revalidations (trace w)).
Proof.
  unfold confirmDelete, try_catch, bind, confirmAlert, unlinkSync.
  destruct (confirmAlert_answer h); cbn.
  - destruct (unlink_error h (path file)) as [e|]; cbn.
    + rewrite <- !app_assoc, !revalidations_app. cbn. repeat split; lia.
    + destruct (files w !! path file) as [c|]; cbn;
        rewrite <- !app_assoc, !revalidations_app; cbn; repeat split; lia.
  - rewrite revalidations_app. cbn. repeat split; lia.
Qed.

(** The error [unlinkSync] throws, for the three ways it fails. *)
Lemma unlinkSync_throws (h : Host) (file : jsstring) (w : World) (e : Thrown) :
  (unlinkSync h file w).1 = Threw e <->
  match unlink_error h file with
  | Some e' => e = e'
  | None =>
      files w !! file = None
      /\ e = (if bool_decide (file ∈ dirs w)
              then unlink_directory_error h file
              else enoent file)
  end.
Proof.
  unfold unlinkSync. destruct (unlink_error h file) as [e'|]; cbn.
  - split; [now intros [= ->]|now intros ->].
  - destruct (files w !! file) as [c|]; cbn.
    + split; [discriminate|now intros [[=] _]].
    + split; [now intros [= <-]|now intros [_ ->]].
Qed.

(** The file of the sample world, deleted after confirmation. *)
Example confirmDelete_removes_note :
  let r := confirmDelete sampleHost noteFile notesWorld in
  files r.2 !! path noteFile = None
  /\ revalidations (trace r.2) = 1%nat.
Proof. vm_compute. split; reflexivity. Qed.

(** The same file on a host that refuses the removal: the message of
    the error is in neither part of the notification. *)
Example confirmDelete_refused :
  let r := confirmDelete lockedHost noteFile notesWorld in
  trace r.2
  = [ deleteAlert noteFile; UnlinkSync (lit "/notes/my-note.md");
      ShowToast Failure (lit "Something went wrong") (lit "[object Object]") ]
  /\ includes (lit "Something went wrong") (message_of notPermitted) = false
  /\ includes (lit "[object Object]") (message_of notPermitted) = false
  /\ files r.2 !! lit "/notes/my-note.md" = Some (lit "kept").
Proof. vm_compute. repeat split. Qed.

(** ** The editor launcher *)

Lemma jsstring_eqb_refl (s : jsstring) : jsstring_eqb s s = true.
Proof. unfold jsstring_eqb. now apply bool_decide_eq_true. Qed.

(** C7. When the preferred editor is Typora, the launch by application
    name fails and Typora's install path does not exist, the launcher
    logs the failure and calls the default opener next: nothing is
    thrown before that call and no direct launch is tried.  If the
    opener succeeds the launcher returns; if it throws, the error is
    logged and the opener is called once more. *)
Theorem typora_missing_falls_back_to_default_opener
    (h : Host) (file : jsstring) (w : World) (prefs : Preferences) (e : Thrown) :
  getPreferenceValues h = inr prefs ->
  editorOf prefs = lit "Typora" ->
  exec_error h (openWithAppCommand (lit "Typora") file) = Some e ->
  fs_exists w typoraPath = false ->
  let w1 :=
    record (ConsoleWarn (failedToOpenWith (lit "Typora")) e)
      (record (Exec (openWithAppCommand (lit "Typora") file)) w) in
  trace w1
  = trace w ++ [ Exec (openWithAppCommand (lit "Typora") file);
                 ConsoleWarn (failedToOpenWith (lit "Typora")) e ]
  /\ openWithEditor h file w
     = match open_error h (trace w1) file with
       | None => (Returned tt, record (Open file) w1)
       | Some e1 =>
           let w2 :=
             record (ConsoleError (lit "Failed to open file:") e1)
               (record (Open file) w1) in
           (match open_error h (trace w2) file with
            | None => Returned tt
            | Some e2 => Threw e2
            end, record (Open file) w2)
       end.
Proof.
  intros Hprefs Heditor Hexec Hpath w1. split.
  - subst w1. cbn. now rewrite <- app_assoc.
  - unfold openWithEditor, try_catch, bind, readPreferences.
    rewrite Hprefs, Heditor. unfold execPromise at 1, attempt at 1.
    rewrite Hexec. cbn [console_warn emit].
    rewrite jsstring_eqb_refl. unfold existsSync.
    change (fs_exists (record ?a (record ?b w)) typoraPath)
      with (fs_exists w typoraPath).
    rewrite Hpath. unfold ret, open, attempt. fold w1.
    destruct (open_error h (trace w1) file) as [e1|]; [|reflexivity].
    cbn [console_error emit].
    match goal with
    | |- context [open_error h ?t file] => destruct (open_error h t file)
    end; reflexivity.
Qed.

Lemma typora_missing_falls_back_to_default_opener_witness :
  let e := commandNotFound in
  let h := brokenOpenHost in
  let file := lit "/notes/other.md" in
  let w1 :=
    record (ConsoleWarn (failedToOpenWith (lit "Typora")) e)
      (record (Exec (openWithAppCommand (lit "Typora") file)) notesWorld) in
  trace w1
  = trace notesWorld ++ [ Exec (openWithAppCommand (lit "Typora") file);
                          ConsoleWarn (failedToOpenWith (lit "Typora")) e ]
  /\ openWithEditor h file notesWorld
     = match open_error h (trace w1) file with
       | None => (Returned tt, record (Open file) w1)
       | Some e1 =>
           let w2 :=
             record (ConsoleError (lit "Failed to open file:") e1)
               (record (Open file) w1) in
           (match open_error h (trace w2) file with
            | None => Returned tt
            | Some e2 => Threw e2
            end, record (Open file) w2)
       end.
Proof.
  apply (typora_missing_falls_back_to_default_opener brokenOpenHost
           (lit "/notes/other.md") notesWorld
           {| defaultEditor := Some (lit "Typora") |} commandNotFound).
  - reflexivity.
  - reflexivity.
  - reflexivity.
  - vm_compute. reflexivity.
Defined.

(** The launcher touches no file, shows no notification, and can only
    throw from the default opener called in its error handler, after
    the earlier error was logged. *)
Lemma openWithEditor_throws (h : Host) (file : jsstring) (w w2 : World)
    (e : Thrown) :
  openWithEditor h file w = (Threw e, w2) ->
  exists w1 e1,
    w2 = record (Open file) (record (ConsoleError (lit "Failed to open file:") e1) w1)
    /\ open_error h
         (trace (record (ConsoleError (lit "Failed to open file:") e1) w1)) file
       = Some e
    /\ files w1 = files w /\ dirs w1 = dirs w
    /\ exists tr, trace w1 = trace w ++ tr
                  /\ Forall (fun ev => is_failure_notice ev = false) tr.
Proof.
  unfold openWithEditor, try_catch, bind, readPreferences, execPromise,
    existsSync, open, attempt, console_warn, console_error, emit, ret.
  destruct (getPreferenceValues h) as [e0|prefs].
  - destruct (open_error h _ file) as [e1|] eqn:E; intros [= <- <-].
    exists w, e0. repeat split; [exact E|]. exists []. split; [now rewrite app_nil_r|constructor].
  - destruct (exec_error h (openWithAppCommand _ file)) as [e0|]; [|discriminate].
    destruct (jsstring_eqb (editorOf prefs) (lit "Typora")).
    + change (fs_exists (record ?a (record ?b w)) typoraPath)
        with (fs_exists w typoraPath).
      destruct (fs_exists w typoraPath).
      * destruct (exec_error h (directCommand file)) as [e1|]; [|discriminate].
        destruct (open_error h _ file) as [e2|] eqn:E; intros [= <- <-].
        eexists _, e1. repeat split; [exact E|]. eexists. split.
        { cbn. rewrite <- !app_assoc. reflexivity. }
        repeat constructor.
      * destruct (open_error h _ file) as [e1|] eqn:E1; [|discriminate].
        destruct (open_error h _ file) as [e2|] eqn:E2 in |- *; intros [= <- <-].
        eexists _, e1. repeat split; [exact E2|]. eexists. split.
        { cbn. rewrite <- !app_assoc. reflexivity. }
        repeat constructor.
    + destruct (open_error h _ file) as [e1|] eqn:E1; [|discriminate].
      destruct (open_error h _ file) as [e2|] eqn:E2 in |- *; intros [= <- <-].
      eexists _, e1. repeat split; [exact E2|]. eexists. split.
      { cbn. rewrite <- !app_assoc. reflexivity. }
      repeat constructor.
Qed.

(** ** File creation *)

Lemma fs_exists_dirReady (h : Host) (o : CreateMarkdownOptions) (w : World)
    (p : jsstring) :
  fs_exists w p = true -> fs_exists (dirReady h o w) p = true.
Proof.
  unfold dirReady. destruct (fs_exists w (baseDir h o)); [auto|].
  unfold fs_exists. cbn [files dirs]. intros H.
  apply orb_prop in H as [H|H]; [now rewrite H|].
  apply orb_true_iff. right.
  apply bool_decide_eq_true. apply bool_decide_eq_true in H. set_solver.
Qed.

(** Lines 135-137: the directory is made when it is missing. *)
Lemma directory_step (h : Host) (o : CreateMarkdownOptions) (w : World) :
  fs_exists w (baseDir h o) = true \/ mkdir_error h (baseDir h o) = None ->
  (if fs_exists w (baseDir h o) then ret tt else mkdirSync h (baseDir h o)) w
  = (Returned tt, dirReady h o w).
Proof.
  intros H. unfold dirReady, mkdirSync, ret.
  destruct (fs_exists w (baseDir h o)); [reflexivity|].
  destruct H as [H|H]; [discriminate|]. now rewrite H.
Qed.

(** The body of [createMarkdownFileHelper] after the directory step. *)
Lemma createMarkdownFileHelper_unfold (h : Host) (o : CreateMarkdownOptions)
    (w : World) :
  fs_exists w (baseDir h o) = true \/ mkdir_error h (baseDir h o) = None ->
  createMarkdownFileHelper h o w
  = try_catch
      (if fs_exists (dirReady h o w) (filePath h o) then
         showToast Failure (lit "File already exists") (fileName (title o));;
         ret []
       else
         content ← renderContent h o;
         writeFileSync h (filePath h o) content;;
         showToast Success (lit "Markdown file created")
           (fileName (title o) ++ lit " in " ++ path_basename h (baseDir h o));;
         openWithEditor h (filePath h o);;
         ret (filePath h o))
      (fun error =>
         console_error (lit "Error creating Markdown file:") error;;
         showToast Failure (lit "Failed to create Markdown file") (String_of error);;
         ret [])
      (dirReady h o w).
Proof.
  intros H. unfold createMarkdownFileHelper, try_catch.
  unfold bind at 1. unfold existsSync at 1. cbv iota beta.
  unfold bind at 1. rewrite (directory_step h o w H). cbv iota beta.
  unfold bind at 1. unfold existsSync at 1. cbv iota beta.
  reflexivity.
Qed.

(** Lines 135-137 and 175-183: a throw of [mkdirSync] ends the run in
    the handler. *)
Lemma mkdir_failure_run (h : Host) (o : CreateMarkdownOptions) (w : World)
    (e : Thrown) :
  fs_exists w (baseDir h o) = false ->
  mkdir_error h (baseDir h o) = Some e ->
  createMarkdownFileHelper h o w = (Returned [], failed e (mkdirThrown h o w)).
Proof.
  intros Hd Hm. unfold createMarkdownFileHelper, try_catch.
  unfold bind at 1. unfold existsSync at 1. rewrite Hd. cbv iota beta.
  unfold bind at 1. unfold mkdirSync at 1. rewrite Hm. reflexivity.
Qed.

(** Whatever becomes of the directory step, an existing path is never
    written to and the result is the empty string. *)
Lemma existing_file_never_written (h : Host) (o : CreateMarkdownOptions)
    (w : World) :
  fs_exists w (filePath h o) = true ->
  (createMarkdownFileHelper h o w).1 = Returned []
  /\ files (createMarkdownFileHelper h o w).2 = files w.
Proof.
  intros Hfile.
  enough (exists w', createMarkdownFileHelper h o w = (Returned [], w')
                     /\ files w' = files w) as (w' & -> & Hw') by auto.
  destruct (fs_exists w (baseDir h o)) eqn:Hd;
    [|destruct (mkdir_error h (baseDir h o)) as [e|] eqn:Hm].
  - rewrite (createMarkdownFileHelper_unfold h o w (or_introl Hd)).
    rewrite (fs_exists_dirReady h o w _ Hfile).
    unfold dirReady. rewrite Hd. eexists. split; reflexivity.
  - unfold createMarkdownFileHelper, try_catch.
    unfold bind at 1. unfold existsSync at 1. rewrite Hd. cbv iota beta.
    unfold bind at 1. unfold mkdirSync at 1. rewrite Hm.
    eexists. split; reflexivity.
  - rewrite (createMarkdownFileHelper_unfold h o w (or_intror Hm)).
    rewrite (fs_exists_dirReady h o w _ Hfile).
    unfold dirReady. rewrite Hd. eexists. split; reflexivity.
Qed.




Lemma renderContent_string (h : Host) (o : CreateMarkdownOptions)
    (tpl : jsstring) :
  templateContent (templateOf o) = VString tpl ->
  renderContent h o
  = ret (render tpl (title o) (formattedDate (now h)) (tagsOf o)).
Proof. intros H. unfold renderContent. now rewrite H. Qed.

(** C2. The claim fails: an error of the launcher's last call of the
    default opener is not swallowed.  Whenever the file was written and
    that call (the one in the launcher's error handler, made after the
    earlier error was logged) throws, the error leaves the launcher and
    is caught by the creation: it is logged, the failure notification
    [Failed to create Markdown file] with the text of the error follows
    the success notification, and the result is the empty string
    instead of the path.  The written file stays. *)
Theorem launch_failure_reported (h : Host) (o : CreateMarkdownOptions)
    (w w2 : World) (tpl : jsstring) (e : Thrown) :
  fs_exists w (baseDir h o) = true \/ mkdir_error h (baseDir h o) = None ->
  fs_exists (dirReady h o w) (filePath h o) = false ->
  templateContent (templateOf o) = VString tpl ->
  write_error h (filePath h o) = None ->
  let content := render tpl (title o) (formattedDate (now h)) (tagsOf o) in
  openWithEditor h (filePath h o) (written h o content (dirReady h o w))
  = (Threw e, w2) ->
  (exists w1 e1,
     w2 = record (Open (filePath h o))
            (record (ConsoleError (lit "Failed to open file:") e1) w1)
     /\ open_error h
          (trace (record (ConsoleError (lit "Failed to open file:") e1) w1))
          (filePath h o)
        = Some e)
  /\ createMarkdownFileHelper h o w
     = (Returned [],
        record (ShowToast Failure (lit "Failed to create Markdown file")
                  (String_of e))
          (record (ConsoleError (lit "Error creating Markdown file:") e) w2))
  /\ files w2 !! filePath h o = Some content
  /\ createdToast h o ∈ trace w2.
Proof.
  intros Hdir Hfile Htpl Hwrite content Hopen.
  destruct (openWithEditor_throws _ _ _ _ _ Hopen)
    as (w1 & e1 & Hw2 & Hlast & Hfiles & _ & tr & Htr & _).
  split; [now exists w1, e1|]. split; [|split].
  - rewrite (createMarkdownFileHelper_unfold h o w Hdir), Hfile.
    rewrite (renderContent_string h o tpl Htpl). fold content.
    unfold try_catch. unfold bind at 1. unfold ret at 1. cbv iota beta.
    unfold bind at 1. unfold writeFileSync at 1. rewrite Hwrite. cbv iota beta.
    unfold bind at 1. unfold showToast at 1, emit at 1. cbv iota beta.
    unfold bind at 1.
    change (openWithEditor h (filePath h o) ?x)
      with (openWithEditor h (filePath h o) (written h o content (dirReady h o w))).
    rewrite Hopen. reflexivity.
  - rewrite Hw2. cbn [record files]. rewrite Hfiles.
    unfold written. cbn [record files]. apply lookup_insert_eq.
  - rewrite Hw2. cbn [record trace]. rewrite Htr.
    unfold written. cbn [record trace].
    do 3 (apply elem_of_app; left). apply elem_of_app; right. constructor.
Qed.

Lemma launch_failure_reported_witness :
  let h := brokenOpenHost in
  let o := otherOptions in
  let content :=
    render tpl_basic (title o) (formattedDate (now h)) (tagsOf o) in
  let w2 :=
    (openWithEditor h (filePath h o)
       (written h o content (dirReady h o notesWorld))).2 in
  (exists w1 e1,
     w2 = record (Open (filePath h o))
            (record (ConsoleError (lit "Failed to open file:") e1) w1)
     /\ open_error h
          (trace (record (ConsoleError (lit "Failed to open file:") e1) w1))
          (filePath h o)
        = Some noOpener)
  /\ createMarkdownFileHelper h o notesWorld
     = (Returned [],
        record (ShowToast Failure (lit "Failed to create Markdown file")
                  (String_of noOpener))
          (record (ConsoleError (lit "Error creating Markdown file:") noOpener) w2))
  /\ files w2 !! filePath h o = Some content
  /\ createdToast h o ∈ trace w2.
Proof.
  apply (launch_failure_reported brokenOpenHost otherOptions notesWorld).
  - left. vm_compute. reflexivity.
  - vm_compute. reflexivity.
  - reflexivity.
  - reflexivity.
  - vm_compute. reflexivity.
Defined.

(** The run on a host where no application can be launched and the
    default opener throws at each call: the file is written and the
    success notification shown, yet the failure notification follows
    and the result is the empty string instead of the path. *)
Example launch_failure_surfaces_failure_toast :
  let r := createMarkdownFileHelper brokenOpenHost otherOptions notesWorld in
  let file := lit "/notes/other.md" in
  let content :=
    unlines [ lit "# Other"; [];
              lit "Created: 2026-11-02";
              lit "Tags: "; [];
              lit "## Content"; [] ] in
  filePath brokenOpenHost otherOptions = file
  /\ files r.2 !! file = Some content
  /\ trace r.2
     = [ WriteFileSync file content;
         ShowToast Success (lit "Markdown file created") (lit "other.md in notes");
         Exec (openWithAppCommand (lit "Typora") file);
         ConsoleWarn (failedToOpenWith (lit "Typora")) commandNotFound;
         Open file;
         ConsoleError (lit "Failed to open file:") noOpener;
         Open file;
         ConsoleError (lit "Error creating Markdown file:") noOpener;
         ShowToast Failure (lit "Failed to create Markdown file")
           (lit "Error: No application to open the file") ]
  /\ r.1 = Returned []
  /\ r.1 <> Returned file
  /\ existsb is_failure_notice (trace r.2) = true.
Proof.
  vm_compute. repeat split; discriminate.
Qed.

(** An error of the first call of the default opener, by contrast, is
    logged and goes no further when the second call succeeds: the path
    is returned and no failure notification is shown. *)
Example first_opener_failure_swallowed :
  let r := createMarkdownFileHelper flakyOpenHost otherOptions notesWorld in
  let file := lit "/notes/other.md" in
  r.1 = Returned file
  /\ existsb is_failure_notice (trace r.2) = false
  /\ skipn 2 (trace r.2)
     = [ Exec (openWithAppCommand (lit "Typora") file);
         ConsoleWarn (failedToOpenWith (lit "Typora")) commandNotFound;
         Open file;
         ConsoleError (lit "Failed to open file:") noOpener;
         Open file ].
Proof. vm_compute. repeat split. Qed.

(** ** The choice of the template *)

(** The four templates with text are chosen by their keys. *)
Lemma templateContent_named :
  templateContent (lit "basic") = VString tpl_basic
  /\ templateContent (lit "meeting") = VString tpl_meeting
  /\ templateContent (lit "blog") = VString tpl_blog
  /\ templateContent (lit "project") = VString tpl_project.
Proof. repeat split. Qed.

(** A key for which the lookup finds nothing gives the basic template;
    so does an absent key, by the default of the parameter. *)
Lemma templateContent_unknown (key : jsstring) :
  templates key = VUndefined -> templateContent key = VString tpl_basic.
Proof. intros H. unfold templateContent. now rewrite H. Qed.

Lemma templateOf_absent (o : CreateMarkdownOptions) :
  template o = None -> templateContent (templateOf o) = VString tpl_basic.
Proof. intros H. unfold templateOf. now rewrite H. Qed.

(** A key that names a member of [Object.prototype] gives that member,
    which is no string: the creation fails on the first [replace]. *)
Lemma inherited_key_fails :
  let o := withTargetPath
             {| title := lit "Other"; template := Some (lit "toString");
                tags := None; targetPath := None |}
             (Some (lit "/notes")) in
  let r := createMarkdownFileHelper sampleHost o notesWorld in
  templateContent (lit "toString") = VInherited (lit "toString")
  /\ r.1 = Returned []
  /\ files r.2 = files notesWorld
  /\ trace r.2
     = [ ConsoleError (lit "Error creating Markdown file:")
           (ErrorObj (lit "TypeError") (lit "content.replace is not a function"));
         ShowToast Failure (lit "Failed to create Markdown file")
           (lit "TypeError: content.replace is not a function") ].
Proof. vm_compute. repeat split. Qed.

(** C3 at the key [empty]. The table holds the empty template under
    that key, but the empty string is falsy, so the fallback takes the
    basic template: the file created for the key [empty] holds the basic
    rendering, not the empty content. *)
Theorem empty_template_key_renders_basic :
  let r := createMarkdownFileHelper sampleHost emptyTemplateOptions notesWorld in
  let file := lit "/notes/other.md" in
  templates (lit "empty") = VString tpl_empty
  /\ templateContent (lit "empty") = VString tpl_basic
  /\ render tpl_empty (lit "Other") (lit "2026-11-02") [] = []
  /\ r.1 = Returned file
  /\ files r.2 !! file
     = Some (unlines [ lit "# Other"; [];
                       lit "Created: 2026-11-02";
                       lit "Tags: "; [];
                       lit "## Content"; [] ])
  /\ files r.2 !! file
     <> Some (render tpl_empty (lit "Other") (lit "2026-11-02") []).
Proof. vm_compute. repeat split. discriminate. Qed.

(** * Properties of the rest of the sources *)

(** ** The launcher, path by path *)

Ltac launcher_unfold :=
  unfold openWithEditor, try_catch, bind, readPreferences, execPromise,
    existsSync, open, attempt, console_warn, console_error, emit, ret.

(** Case analysis on every answer of the host the launcher asks for. *)
Ltac launcher_cases h :=
  repeat match goal with
    | |- context [getPreferenceValues h] =>
        destruct (getPreferenceValues h) as [?e|?p] eqn:?
    | |- context [exec_error h ?c] => destruct (exec_error h c) as [?e|] eqn:?
    | |- context [open_error h ?t ?f] =>
        destruct (open_error h t f) as [?e|] eqn:?
    | |- context [jsstring_eqb ?a ?b] => destruct (jsstring_eqb a b) eqn:?
    | |- context [fs_exists ?w ?p] => destruct (fs_exists w p) eqn:?
    end.

(** What every run of the launcher has in common: it makes no call that
    changes the file system, so the files and directories of the world
    stay as they are; the trace only grows, no notification is shown,
    and at most two commands and two calls of the default opener are
    made. *)
Lemma openWithEditor_frame (h : Host) (file : jsstring) (w : World) :
  exists tr,
    files (openWithEditor h file w).2 = files w
    /\ dirs (openWithEditor h file w).2 = dirs w
    /\ trace (openWithEditor h file w).2 = trace w ++ tr
    /\ Forall (fun ev => is_toast ev = false /\ is_write ev = false) tr
    /\ (occurrences is_exec tr <= 2)%nat
    /\ (occurrences is_open tr <= 2)%nat
    /\ (1 <= occurrences is_launch tr)%nat.
Proof.
  launcher_unfold. launcher_cases h;
    (eexists; split; [reflexivity|]; split; [reflexivity|];
     split; [cbn [snd record trace]; rewrite <- ?app_assoc; reflexivity|];
     split; [repeat constructor|]; cbn; lia).
Qed.


(** X1. launcher, calls. Whatever the host answers, the launcher itself
    calls nothing that changes the file system (no [mkdirSync],
    [writeFileSync], [unlinkSync] or [moveToTrash]), shows no
    notification, and makes at least one and at most four launch
    attempts: at most two commands and at most two calls of the default
    opener. *)
Theorem launcher_attempts_bounded (h : Host) (file : jsstring) (w : World) :
  exists tr,
    trace (openWithEditor h file w).2 = trace w ++ tr
    /\ Forall (fun ev => is_toast ev = false /\ is_fs_call ev = false) tr
    /\ (occurrences is_exec tr <= 2)%nat
    /\ (occurrences is_open tr <= 2)%nat
    /\ (1 <= occurrences is_launch tr)%nat.
Proof.
  launcher_unfold. launcher_cases h;
    (eexists;
     split; [cbn [snd record trace]; rewrite <- ?app_assoc; reflexivity|];
     split; [repeat constructor|]; cbn; lia).
Qed.

(** X2. launcher, first step. When the launch by application name
    succeeds, the launcher returns after that single command; the
    application named is the preferred editor, and Typora when the
    preference is undefined or empty. *)
Theorem launcher_named_application (h : Host) (file : jsstring) (w : World)
    (p : Preferences) :
  getPreferenceValues h = inr p ->
  exec_error h (openWithAppCommand (editorOf p) file) = None ->
  openWithEditor h file w
  = (Returned tt, record (Exec (openWithAppCommand (editorOf p) file)) w)
  /\ (defaultEditor p = None \/ defaultEditor p = Some [] ->
      editorOf p = lit "Typora")
  /\ (forall c r, defaultEditor p = Some (c :: r) -> editorOf p = c :: r).
Proof.
  intros Hp He. split; [|split].
  - launcher_unfold. rewrite Hp, He. reflexivity.
  - unfold editorOf. intros [-> | ->]; reflexivity.
  - unfold editorOf. intros c r ->. reflexivity.
Qed.

Lemma launcher_named_application_witness :
  let h := hostWith (inr noPreference) (fun _ => None) (fun _ _ => None) in
  let file := lit "/notes/my-note.md" in
  openWithEditor h file notesWorld
  = (Returned tt,
     record (Exec (openWithAppCommand (editorOf noPreference) file)) notesWorld)
  /\ (defaultEditor noPreference = None \/ defaultEditor noPreference = Some [] ->
      editorOf noPreference = lit "Typora")
  /\ (forall c r, defaultEditor noPreference = Some (c :: r) ->
                  editorOf noPreference = c :: r).
Proof.
  apply (launcher_named_application
           (hostWith (inr noPreference) (fun _ => None) (fun _ _ => None))
           (lit "/notes/my-note.md") notesWorld noPreference);
    reflexivity.
Defined.

(** X3. launcher, another editor. When the preferred editor is not Typora
    and its launch fails, the failure is logged and the default opener
    is called next; Typora's install path is neither looked up nor
    launched, whether it exists or not.  A throw of the opener is logged
    and the opener is called once more. *)
Theorem launcher_other_editor (h : Host) (file : jsstring) (w : World)
    (p : Preferences) (e : Thrown) :
  getPreferenceValues h = inr p ->
  editorOf p <> lit "Typora" ->
  exec_error h (openWithAppCommand (editorOf p) file) = Some e ->
  let w1 :=
    record (ConsoleWarn (failedToOpenWith (editorOf p)) e)
      (record (Exec (openWithAppCommand (editorOf p) file)) w) in
  openWithEditor h file w
  = match open_error h (trace w1) file with
    | None => (Returned tt, record (Open file) w1)
    | Some e1 =>
        let w2 :=
          record (ConsoleError (lit "Failed to open file:") e1)
            (record (Open file) w1) in
        (match open_error h (trace w2) file with
         | None => Returned tt
         | Some e2 => Threw e2
         end, record (Open file) w2)
    end.
Proof.
  intros Hp Hed He w1. launcher_unfold. rewrite Hp, He.
  unfold jsstring_eqb. rewrite bool_decide_eq_false_2 by exact Hed.
  fold w1. destruct (open_error h (trace w1) file) as [e1|]; [|reflexivity].
  match goal with
  | |- context [open_error h ?t file] => destruct (open_error h t file)
  end; reflexivity.
Qed.

Lemma launcher_other_editor_witness :
  let h := hostWith (inr codePreferences) (fun _ => Some commandNotFound)
             (fun _ _ => None) in
  let file := lit "/notes/my-note.md" in
  let w1 :=
    record (ConsoleWarn (failedToOpenWith (editorOf codePreferences))
              commandNotFound)
      (record (Exec (openWithAppCommand (editorOf codePreferences) file))
         typoraWorld) in
  openWithEditor h file typoraWorld
  = match open_error h (trace w1) file with
    | None => (Returned tt, record (Open file) w1)
    | Some e1 =>
        let w2 :=
          record (ConsoleError (lit "Failed to open file:") e1)
            (record (Open file) w1) in
        (match open_error h (trace w2) file with
         | None => Returned tt
         | Some e2 => Threw e2
         end, record (Open file) w2)
    end.
Proof.
  apply (launcher_other_editor
           (hostWith (inr codePreferences) (fun _ => Some commandNotFound)
              (fun _ _ => None))
           (lit "/notes/my-note.md") typoraWorld codePreferences commandNotFound).
  - reflexivity.
  - vm_compute. discriminate.
  - reflexivity.
Defined.

(** X4. launcher, direct path. When the preferred editor is Typora, the
    launch by name fails and the install path exists, Typora is launched
    by that path.  If this succeeds the launcher returns without calling
    the default opener.  If it throws, the error is logged and the
    default opener is called once; a throw of that call leaves the
    launcher. *)
Theorem launcher_direct_path (h : Host) (file : jsstring) (w : World)
    (p : Preferences) (e : Thrown) :
  getPreferenceValues h = inr p ->
  editorOf p = lit "Typora" ->
  exec_error h (openWithAppCommand (lit "Typora") file) = Some e ->
  fs_exists w typoraPath = true ->
  let w1 :=
    record (Exec (directCommand file))
      (record (ConsoleWarn (failedToOpenWith (lit "Typora")) e)
         (record (Exec (openWithAppCommand (lit "Typora") file)) w)) in
  openWithEditor h file w
  = match exec_error h (directCommand file) with
    | None => (Returned tt, w1)
    | Some e1 =>
        let w2 := record (ConsoleError (lit "Failed to open file:") e1) w1 in
        (match open_error h (trace w2) file with
         | None => Returned tt
         | Some e2 => Threw e2
         end, record (Open file) w2)
    end.
Proof.
  intros Hp Hed He Hpath w1. launcher_unfold. rewrite Hp, Hed, He.
  rewrite jsstring_eqb_refl.
  change (fs_exists (record ?a (record ?b w)) typoraPath)
    with (fs_exists w typoraPath).
  rewrite Hpath. fold w1.
  destruct (exec_error h (directCommand file)) as [e1|]; [|reflexivity].
  match goal with
  | |- context [open_error h ?t file] => destruct (open_error h t file)
  end; reflexivity.
Qed.

Lemma launcher_direct_path_witness :
  let h := hostWith (inr noPreference)
             (fun c => if jsstring_eqb c (directCommand (lit "/notes/my-note.md"))
                       then None else Some commandNotFound)
             (fun _ _ => Some noOpener) in
  let file := lit "/notes/my-note.md" in
  let w1 :=
    record (Exec (directCommand file))
      (record (ConsoleWarn (failedToOpenWith (lit "Typora")) commandNotFound)
         (record (Exec (openWithAppCommand (lit "Typora") file)) typoraWorld)) in
  openWithEditor h file typoraWorld
  = match exec_error h (directCommand file) with
    | None => (Returned tt, w1)
    | Some e1 =>
        let w2 := record (ConsoleError (lit "Failed to open file:") e1) w1 in
        (match open_error h (trace w2) file with
         | None => Returned tt
         | Some e2 => Threw e2
         end, record (Open file) w2)
    end.
Proof.
  apply (launcher_direct_path
           (hostWith (inr noPreference)
              (fun c => if jsstring_eqb c (directCommand (lit "/notes/my-note.md"))
                        then None else Some commandNotFound)
              (fun _ _ => Some noOpener))
           (lit "/notes/my-note.md") typoraWorld noPreference commandNotFound).
  - reflexivity.
  - reflexivity.
  - vm_compute. reflexivity.
  - vm_compute. reflexivity.
Defined.

(** X5. launcher, preferences. When reading the preferences throws, no
    command is run: the error is logged and the default opener is called
    once, and a throw of that call leaves the launcher. *)
Theorem launcher_preferences_unreadable (h : Host) (file : jsstring)
    (w : World) (e : Thrown) :
  getPreferenceValues h = inl e ->
  let w1 := record (ConsoleError (lit "Failed to open file:") e) w in
  openWithEditor h file w
  = (match open_error h (trace w1) file with
     | None => Returned tt
     | Some e1 => Threw e1
     end, record (Open file) w1).
Proof.
  intros Hp w1. launcher_unfold. rewrite Hp. fold w1.
  destruct (open_error h (trace w1) file); reflexivity.
Qed.

Lemma launcher_preferences_unreadable_witness :
  let h := hostWith (inl commandNotFound) (fun _ => None) (fun _ _ => None) in
  let file := lit "/notes/my-note.md" in
  let w1 := record (ConsoleError (lit "Failed to open file:") commandNotFound)
              notesWorld in
  openWithEditor h file notesWorld
  = (match open_error h (trace w1) file with
     | None => Returned tt
     | Some e1 => Threw e1
     end, record (Open file) w1).
Proof.
  apply (launcher_preferences_unreadable
           (hostWith (inl commandNotFound) (fun _ => None) (fun _ _ => None))
           (lit "/notes/my-note.md") notesWorld commandNotFound).
  reflexivity.
Defined.

(** ** The runs of the creation *)

(** Every run of [createMarkdownFileHelper] is one of the six of
    [CreationRun]. *)
Lemma creation_runs (h : Host) (o : CreateMarkdownOptions) (w : World) :
  CreationRun h o w (createMarkdownFileHelper h o w).
Proof.
  destruct (fs_exists w (baseDir h o)) eqn:Hd;
    [pose proof (or_introl Hd : _ \/ mkdir_error h (baseDir h o) = None) as Hok
    |destruct (mkdir_error h (baseDir h o)) as [e|] eqn:Hm;
       [|pose proof (or_intror Hm : fs_exists w (baseDir h o) = true \/ _) as Hok]].
  2:{ rewrite (mkdir_failure_run h o w e Hd Hm). now apply RunMkdirFailed. }
  all: rewrite (createMarkdownFileHelper_unfold h o w Hok);
    destruct (fs_exists (dirReady h o w) (filePath h o)) eqn:Hf;
    [now apply RunFileExists|];
    unfold try_catch; unfold bind at 1; unfold renderContent;
    destruct (templateContent (templateOf o)) as [tpl|k|] eqn:Ht;
    [|apply RunNotAString; [exact Hf|congruence]
     |apply RunNotAString; [exact Hf|congruence]];
    unfold ret at 1; cbv iota beta;
    unfold bind at 1; unfold writeFileSync at 1;
    (destruct (write_error h (filePath h o)) as [e|] eqn:Hw;
     [now apply (RunWriteFailed h o w tpl e)|]);
    cbv iota beta; unfold bind at 1; unfold showToast at 1, emit at 1;
    cbv iota beta; unfold bind at 1;
    change (openWithEditor h (filePath h o) ?x)
      with (openWithEditor h (filePath h o)
              (written h o (contentOf h o tpl) (dirReady h o w)));
    destruct (openWithEditor h (filePath h o)
                (written h o (contentOf h o tpl) (dirReady h o w)))
      as [[[]|e] w2] eqn:Hl;
    [now apply (RunCreated h o w tpl w2)
    |now apply (RunLaunchFailed h o w tpl e w2)].
Qed.

Lemma occurrences_app (kind : Event -> bool) (a b : list Event) :
  occurrences kind (a ++ b) = (occurrences kind a + occurrences kind b)%nat.
Proof. unfold occurrences. now rewrite List.filter_app, length_app. Qed.

Lemma occurrences_none (kind : Event -> bool) (tr : list Event) :
  Forall (fun ev => kind ev = false) tr -> occurrences kind tr = 0%nat.
Proof.
  unfold occurrences. induction 1 as [|ev tr Hev _ IH]; [reflexivity|].
  cbn. now rewrite Hev.
Qed.

Lemma no_failure_notice (tr : list Event) :
  Forall (fun ev => is_toast ev = false) tr ->
  existsb is_failure_notice tr = false.
Proof.
  induction 1 as [|ev tr Hev _ IH]; [reflexivity|].
  cbn. rewrite IH. now destruct ev as [[]| | | | | | | | | |].
Qed.

Lemma dirReady_files (h : Host) (o : CreateMarkdownOptions) (w : World) :
  files (dirReady h o w) = files w.
Proof. unfold dirReady. now destruct (fs_exists w (baseDir h o)). Qed.

Lemma dirReady_trace (h : Host) (o : CreateMarkdownOptions) (w : World) :
  trace (dirReady h o w)
  = trace w ++ (if fs_exists w (baseDir h o) then []
                else [MkdirSync (baseDir h o)]).
Proof.
  unfold dirReady. destruct (fs_exists w (baseDir h o)); [|reflexivity].
  now rewrite app_nil_r.
Qed.

Lemma dirReady_dirs (h : Host) (o : CreateMarkdownOptions) (w : World) :
  dirs (dirReady h o w)
  = if fs_exists w (baseDir h o) then dirs w
    else {[baseDir h o]} ∪ list_to_set (mkdir_made h (baseDir h o)) ∪ dirs w.
Proof. unfold dirReady. now destruct (fs_exists w (baseDir h o)). Qed.

Lemma not_exists_no_file (w : World) (p : jsstring) :
  fs_exists w p = false -> files w !! p = None.
Proof.
  unfold fs_exists. intros H. apply orb_false_elim in H as [H _].
  apply bool_decide_eq_false in H. destruct (files w !! p); [|reflexivity].
  exfalso. apply H. eauto.
Qed.

(** What the launcher leaves of the world it starts in, when its run is
    known. *)
Lemma launcher_result (h : Host) (file : jsstring) (w w2 : World)
    (out : Outcome unit) :
  openWithEditor h file w = (out, w2) ->
  exists tr,
    files w2 = files w /\ dirs w2 = dirs w /\ trace w2 = trace w ++ tr
    /\ Forall (fun ev => is_toast ev = false) tr
    /\ Forall (fun ev => is_write ev = false) tr.
Proof.
  intros H. destruct (openWithEditor_frame h file w)
    as (tr & Hf & Hd & Ht & Hn & _).
  rewrite H in Hf, Hd, Ht. exists tr. repeat split; try assumption.
  - eapply Forall_impl; [exact Hn|]. now intros ev [].
  - eapply Forall_impl; [exact Hn|]. now intros ev [].
Qed.

Lemma mkdir_prefix_silent (b : bool) (d : jsstring) :
  let l := if b then [] else [MkdirSync d] in
  occurrences is_toast l = 0%nat /\ occurrences is_write l = 0%nat
  /\ existsb is_failure_notice l = false.
Proof. now destruct b. Qed.

(** The notifications of a run and its result. *)
Lemma run_notifications (h : Host) (o : CreateMarkdownOptions) (w : World)
    (r : Outcome jsstring * World) :
  CreationRun h o w r ->
  exists s tr,
    r.1 = Returned s
    /\ trace r.2 = trace w ++ tr
    /\ (1 <= occurrences is_toast tr <= 2)%nat
    /\ (occurrences is_write tr <= 1)%nat
    /\ (existsb is_failure_notice tr = true -> s = [])
    /\ (existsb is_failure_notice tr = false ->
        s = filePath h o
        /\ files w !! filePath h o = None
        /\ exists tpl, templateContent (templateOf o) = VString tpl
                       /\ files r.2 !! filePath h o = Some (contentOf h o tpl)).
Proof.
  intros Hrun.
  destruct (mkdir_prefix_silent (fs_exists w (baseDir h o)) (baseDir h o))
    as (Hm1 & Hm2 & Hm3).
  set (pre := if fs_exists w (baseDir h o) then []
              else [MkdirSync (baseDir h o)]) in *.
  assert (Hpre : trace (dirReady h o w) = trace w ++ pre)
    by apply dirReady_trace.
  destruct Hrun as
    [e Hd Hm | Hf | Hf Ht | tpl e Hf Ht Hw | tpl e w2 Hf Ht Hw Hl
    | tpl w2 Hf Ht Hw Hl]; cbn [fst snd].
  - exists [], [MkdirSync (baseDir h o);
                ConsoleError (lit "Error creating Markdown file:") e;
                ShowToast Failure (lit "Failed to create Markdown file")
                  (String_of e)].
    split; [reflexivity|].
    split; [unfold failed, mkdirThrown; cbn [record trace];
            now rewrite <- !app_assoc|].
    split; [unfold occurrences; cbn [List.filter is_toast length]; lia|].
    split; [unfold occurrences; cbn [List.filter is_write length]; lia|].
    split; [reflexivity|]. intros H. discriminate H.
  - exists [], (pre ++ [ShowToast Failure (lit "File already exists")
                          (fileName (title o))]).
    split; [reflexivity|]. split.
    { cbn [record trace]. now rewrite Hpre, <- app_assoc. }
    rewrite !occurrences_app, existsb_app, Hm1, Hm2, Hm3.
    split; [unfold occurrences; cbn [List.filter is_toast length]; lia|].
    split; [unfold occurrences; cbn [List.filter is_write length]; lia|].
    split; [reflexivity|]. intros H. discriminate H.
  - exists [], (pre ++ [ConsoleError (lit "Error creating Markdown file:")
                          notAFunction;
                        ShowToast Failure (lit "Failed to create Markdown file")
                          (String_of notAFunction)]).
    split; [reflexivity|]. split.
    { unfold failed. cbn [record trace]. now rewrite Hpre, <- !app_assoc. }
    rewrite !occurrences_app, existsb_app, Hm1, Hm2, Hm3.
    split; [unfold occurrences; cbn [List.filter is_toast length]; lia|].
    split; [unfold occurrences; cbn [List.filter is_write length]; lia|].
    split; [reflexivity|]. intros H. discriminate H.
  - exists [], (pre ++ [WriteFileSync (filePath h o) (contentOf h o tpl);
                        ConsoleError (lit "Error creating Markdown file:") e;
                        ShowToast Failure (lit "Failed to create Markdown file")
                          (String_of e)]).
    split; [reflexivity|]. split.
    { unfold failed, writeThrown. cbn [record trace].
      now rewrite Hpre, <- !app_assoc. }
    rewrite !occurrences_app, existsb_app, Hm1, Hm2, Hm3.
    split; [unfold occurrences; cbn [List.filter is_toast length]; lia|].
    split; [unfold occurrences; cbn [List.filter is_write length]; lia|].
    split; [reflexivity|]. intros H. discriminate H.
  - destruct (launcher_result _ _ _ _ _ Hl) as (tr & Hfi & _ & Htr & Hnt & Hnw).
    exists [], (pre ++ [WriteFileSync (filePath h o) (contentOf h o tpl);
                        createdToast h o]
                  ++ tr
                  ++ [ConsoleError (lit "Error creating Markdown file:") e;
                      ShowToast Failure (lit "Failed to create Markdown file")
                        (String_of e)]).
    split; [reflexivity|]. split.
    { unfold failed. cbn [record trace]. rewrite Htr. unfold written.
      cbn [record trace]. now rewrite Hpre, <- !app_assoc. }
    rewrite !occurrences_app, !existsb_app, Hm1, Hm2, Hm3.
    rewrite (occurrences_none _ _ Hnt), (occurrences_none _ _ Hnw),
      (no_failure_notice _ Hnt).
    split; [unfold occurrences, createdToast;
            cbn [List.filter is_toast length]; lia|].
    split; [unfold occurrences, createdToast;
            cbn [List.filter is_write length]; lia|].
    split; [reflexivity|]. intros H. discriminate H.
  - destruct (launcher_result _ _ _ _ _ Hl) as (tr & Hfi & _ & Htr & Hnt & Hnw).
    exists (filePath h o),
      (pre ++ [WriteFileSync (filePath h o) (contentOf h o tpl);
               createdToast h o] ++ tr).
    split; [reflexivity|]. split.
    { rewrite Htr. unfold written.
      cbn [record trace]. now rewrite Hpre, <- !app_assoc. }
    rewrite !occurrences_app, !existsb_app, Hm1, Hm2, Hm3.
    rewrite (occurrences_none _ _ Hnt), (occurrences_none _ _ Hnw),
      (no_failure_notice _ Hnt).
    split; [unfold occurrences, createdToast;
            cbn [List.filter is_toast length]; lia|].
    split; [unfold occurrences, createdToast;
            cbn [List.filter is_write length]; lia|].
    split; [intros H; discriminate H|]. intros _.
    split; [reflexivity|]. split.
    { rewrite <- (dirReady_files h o w). now apply not_exists_no_file. }
    exists tpl. split; [exact Ht|].
    rewrite Hfi. unfold written. cbn [record files]. apply lookup_insert_eq.
Qed.

(** X6. creation, every run. The exported tool never throws.  Every run
    shows at least one and at most two notifications and writes at most
    once.  When a failure notification is shown the path it returns is
    the empty string; when none is shown it returns the derived path,
    the file did not exist before and now holds the rendered template. *)
Theorem createMarkdown_outcome (h : Host) (o : CreateMarkdownOptions)
    (w : World) :
  exists s tr,
    (createMarkdown h o w).1 = Returned {| resultFilePath := s |}
    /\ trace (createMarkdown h o w).2 = trace w ++ tr
    /\ (1 <= occurrences is_toast tr <= 2)%nat
    /\ (occurrences is_write tr <= 1)%nat
    /\ (existsb is_failure_notice tr = true -> s = [])
    /\ (existsb is_failure_notice tr = false ->
        s = filePath h o
        /\ files w !! filePath h o = None
        /\ exists tpl,
             templateContent (templateOf o) = VString tpl
             /\ files (createMarkdown h o w).2 !! filePath h o
                = Some (contentOf h o tpl)).
Proof.
  destruct (run_notifications h o w _ (creation_runs h o w))
    as (s & tr & Hs & Htr & Hrest).
  exists s, tr. unfold createMarkdown, bind.
  destruct (createMarkdownFileHelper h o w) as [[s'|e] w'];
    cbn [fst snd] in *; [|discriminate].
  injection Hs as ->. unfold ret. cbn [fst snd]. auto.
Qed.



(** ** The target directory *)


(** The sample request with the empty string as [targetPath]: the file
    is written in the Desktop directory, made on the way, and nothing
    appears at the path that joining the empty string and the filename
    would give. *)
Example empty_targetPath_creates_on_desktop :
  let r :=
    createMarkdownFileHelper sampleHost (withTargetPath otherOptions (Some []))
      notesWorld in
  let file := lit "/Users/me/Desktop/other.md" in
  r.1 = Returned file
  /\ files r.2 !! file
     = Some (unlines [ lit "# Other"; [];
                       lit "Created: 2026-11-02";
                       lit "Tags: "; [];
                       lit "## Content"; [] ])
  /\ files r.2 !! sample_join [] (lit "other.md") = None
  /\ files r.2 !! lit "other.md" = None
  /\ files r.2 !! lit "/other.md" = None
  /\ firstn 3 (trace r.2)
     = [ MkdirSync (lit "/Users/me/Desktop");
         WriteFileSync file
           (unlines [ lit "# Other"; [];
                      lit "Created: 2026-11-02";
                      lit "Tags: "; [];
                      lit "## Content"; [] ]);
         ShowToast Success (lit "Markdown file created")
           (lit "other.md in Desktop") ].
Proof. vm_compute. repeat split. Qed.

(** X8. creation, success. When the derived path is free, the template
    is a text, the write succeeds and the launcher returns, the result
    is the derived path, the file holds the rendered template, and the
    notification of success is the only one shown. *)
Theorem creation_succeeds (h : Host) (o : CreateMarkdownOptions)
    (w w2 : World) (tpl : jsstring) :
  fs_exists w (baseDir h o) = true \/ mkdir_error h (baseDir h o) = None ->
  fs_exists (dirReady h o w) (filePath h o) = false ->
  templateContent (templateOf o) = VString tpl ->
  write_error h (filePath h o) = None ->
  openWithEditor h (filePath h o)
    (written h o (contentOf h o tpl) (dirReady h o w)) = (Returned tt, w2) ->
  createMarkdownFileHelper h o w = (Returned (filePath h o), w2)
  /\ files w2 = <[filePath h o := contentOf h o tpl]> (files w)
  /\ exists tr,
       trace w2
       = trace (dirReady h o w)
           ++ [WriteFileSync (filePath h o) (contentOf h o tpl);
               createdToast h o] ++ tr
       /\ Forall (fun ev => is_toast ev = false) tr.
Proof.
  intros Hdir Hfile Htpl Hwrite Hopen.
  destruct (launcher_result _ _ _ _ _ Hopen) as (tr & Hfi & _ & Htr & Hnt & _).
  split; [|split].
  - rewrite (createMarkdownFileHelper_unfold h o w Hdir), Hfile.
    rewrite (renderContent_string h o tpl Htpl).
    unfold try_catch. unfold bind at 1. unfold ret at 1. cbv iota beta.
    unfold bind at 1. unfold writeFileSync at 1. rewrite Hwrite. cbv iota beta.
    unfold bind at 1. unfold showToast at 1, emit at 1. cbv iota beta.
    unfold bind at 1.
    change (openWithEditor h (filePath h o) ?x)
      with (openWithEditor h (filePath h o)
              (written h o (contentOf h o tpl) (dirReady h o w))).
    rewrite Hopen. reflexivity.
  - rewrite Hfi. unfold written. cbn [record files]. now rewrite dirReady_files.
  - exists tr. split; [|exact Hnt]. rewrite Htr. unfold written.
    cbn [record trace]. now rewrite <- !app_assoc.
Qed.

Lemma creation_succeeds_witness :
  let h := sampleHost in
  let o := otherOptions in
  let w2 :=
    (openWithEditor h (filePath h o)
       (written h o (contentOf h o tpl_basic) (dirReady h o notesWorld))).2 in
  createMarkdownFileHelper h o notesWorld = (Returned (filePath h o), w2)
  /\ files w2 = <[filePath h o := contentOf h o tpl_basic]> (files notesWorld)
  /\ exists tr,
       trace w2
       = trace (dirReady h o notesWorld)
           ++ [WriteFileSync (filePath h o) (contentOf h o tpl_basic);
               createdToast h o] ++ tr
       /\ Forall (fun ev => is_toast ev = false) tr.
Proof.
  apply (creation_succeeds sampleHost otherOptions notesWorld).
  - left. vm_compute. reflexivity.
  - vm_compute. reflexivity.
  - reflexivity.
  - reflexivity.
  - vm_compute. reflexivity.
Defined.

(** X9. creation, write failure. When the write throws, the error is
    logged and shown in the failure notification, the result is the
    empty string and the launcher is not started.  No path other than
    the derived one changes; at the derived path, where nothing was
    before, there is what the failed write left: nothing when it failed
    before the file was opened, an empty or partial file when it failed
    while writing. *)
Theorem creation_write_failure (h : Host) (o : CreateMarkdownOptions)
    (w : World) (tpl : jsstring) (e : Thrown) :
  fs_exists w (baseDir h o) = true \/ mkdir_error h (baseDir h o) = None ->
  fs_exists (dirReady h o w) (filePath h o) = false ->
  templateContent (templateOf o) = VString tpl ->
  write_error h (filePath h o) = Some e ->
  let r := createMarkdownFileHelper h o w in
  r.1 = Returned []
  /\ files w !! filePath h o = None
  /\ files r.2 !! filePath h o
     = write_partial h (filePath h o) (contentOf h o tpl)
  /\ (forall p, p <> filePath h o -> files r.2 !! p = files w !! p)
  /\ trace r.2
     = trace (dirReady h o w)
         ++ [ WriteFileSync (filePath h o) (contentOf h o tpl);
              ConsoleError (lit "Error creating Markdown file:") e;
              ShowToast Failure (lit "Failed to create Markdown file")
                (String_of e) ].
Proof.
  intros Hdir Hfile Htpl Hwrite r.
  assert (Hrun : r = (Returned [],
                      failed e (writeThrown h o (contentOf h o tpl)
                                  (dirReady h o w)))).
  { subst r. rewrite (createMarkdownFileHelper_unfold h o w Hdir), Hfile.
    rewrite (renderContent_string h o tpl Htpl).
    unfold try_catch. unfold bind at 1. unfold ret at 1. cbv iota beta.
    unfold bind at 1. unfold writeFileSync at 1. rewrite Hwrite. reflexivity. }
  assert (Hnone : files w !! filePath h o = None).
  { rewrite <- (dirReady_files h o w). now apply not_exists_no_file. }
  rewrite Hrun. unfold failed, writeThrown. cbn [fst snd record files trace].
  rewrite dirReady_files.
  split; [reflexivity|]. split; [exact Hnone|]. split; [|split].
  - destruct (write_partial h (filePath h o) (contentOf h o tpl)) as [part|];
      [apply lookup_insert_eq|exact Hnone].
  - intros p Hp.
    destruct (write_partial h (filePath h o) (contentOf h o tpl)) as [part|];
      [now rewrite lookup_insert_ne|reflexivity].
  - now rewrite <- !app_assoc.
Qed.

Lemma creation_write_failure_witness :
  let r := createMarkdownFileHelper fullDiskHost otherOptions notesWorld in
  let file := filePath fullDiskHost otherOptions in
  r.1 = Returned []
  /\ files notesWorld !! file = None
  /\ files r.2 !! file
     = write_partial fullDiskHost file
         (contentOf fullDiskHost otherOptions tpl_basic)
  /\ (forall p, p <> file -> files r.2 !! p = files notesWorld !! p)
  /\ trace r.2
     = trace (dirReady fullDiskHost otherOptions notesWorld)
         ++ [ WriteFileSync file
                (contentOf fullDiskHost otherOptions tpl_basic);
              ConsoleError (lit "Error creating Markdown file:") diskFull;
              ShowToast Failure (lit "Failed to create Markdown file")
                (String_of diskFull) ].
Proof.
  apply (creation_write_failure fullDiskHost otherOptions notesWorld tpl_basic
           diskFull).
  - left. vm_compute. reflexivity.
  - vm_compute. reflexivity.
  - reflexivity.
  - reflexivity.
Defined.

(** The full disk of the sample: the failed write leaves an empty file
    at the derived path. *)
Example creation_write_failure_leaves_empty_file :
  let r := createMarkdownFileHelper fullDiskHost otherOptions notesWorld in
  files notesWorld !! lit "/notes/other.md" = None
  /\ files r.2 !! lit "/notes/other.md" = Some []
  /\ r.1 = Returned [].
Proof. vm_compute. repeat split. Qed.

(** X10. creation, directory failure. When the base directory is missing
    and cannot be made, the run stops there: the error is logged and
    shown in the failure notification, the result is the empty string,
    and nothing is written or launched.  The parents that [mkdirSync]
    made before it failed stay. *)
Theorem creation_mkdir_failure (h : Host) (o : CreateMarkdownOptions)
    (w : World) (e : Thrown) :
  fs_exists w (baseDir h o) = false ->
  mkdir_error h (baseDir h o) = Some e ->
  createMarkdownFileHelper h o w
  = (Returned [],
     {| files := files w;
        dirs := list_to_set (mkdir_made h (baseDir h o)) ∪ dirs w;
        trace := trace w
                   ++ [ MkdirSync (baseDir h o);
                        ConsoleError (lit "Error creating Markdown file:") e;
                        ShowToast Failure (lit "Failed to create Markdown file")
                          (String_of e) ] |}).
Proof.
  intros Hd Hm. rewrite (mkdir_failure_run h o w e Hd Hm).
  unfold failed, mkdirThrown, record.
  cbn [files dirs trace]. now rewrite <- !app_assoc.
Qed.

Lemma creation_mkdir_failure_witness :
  createMarkdownFileHelper readOnlyHost vaultOptions notesWorld
  = (Returned [],
     {| files := files notesWorld;
        dirs := list_to_set
                  (mkdir_made readOnlyHost (baseDir readOnlyHost vaultOptions))
                  ∪ dirs notesWorld;
        trace := trace notesWorld
                   ++ [ MkdirSync (baseDir readOnlyHost vaultOptions);
                        ConsoleError (lit "Error creating Markdown file:")
                          accessDenied;
                        ShowToast Failure (lit "Failed to create Markdown file")
                          (String_of accessDenied) ] |}).
Proof.
  apply (creation_mkdir_failure readOnlyHost vaultOptions notesWorld accessDenied).
  - vm_compute. reflexivity.
  - reflexivity.
Defined.

Lemma templateContent_inherited (key : jsstring) :
  key ∈ object_prototype_keys -> templateContent key = VInherited key.
Proof.
  unfold object_prototype_keys. cbn [fmap list_fmap]. intros H.
  repeat (apply elem_of_cons in H as [->|H]; [reflexivity|]).
  inversion H.
Qed.

(** X11. creation, inherited key. A template key that names a member of
    [Object.prototype] selects that member instead of a template: the
    first [replace] throws, so the run ends with the failure
    notification of a [TypeError], returns the empty string and writes
    nothing. *)
Theorem creation_inherited_key (h : Host) (o : CreateMarkdownOptions)
    (w : World) (key : jsstring) :
  template o = Some key ->
  key ∈ object_prototype_keys ->
  fs_exists w (baseDir h o) = true \/ mkdir_error h (baseDir h o) = None ->
  fs_exists (dirReady h o w) (filePath h o) = false ->
  let r := createMarkdownFileHelper h o w in
  r.1 = Returned []
  /\ files r.2 = files w
  /\ trace r.2
     = trace (dirReady h o w)
         ++ [ ConsoleError (lit "Error creating Markdown file:") notAFunction;
              ShowToast Failure (lit "Failed to create Markdown file")
                (lit "TypeError: content.replace is not a function") ].
Proof.
  intros Htpl Hkey Hdir Hfile r.
  assert (Hrun : r = (Returned [], failed notAFunction (dirReady h o w))).
  { subst r. rewrite (createMarkdownFileHelper_unfold h o w Hdir), Hfile.
    assert (Hof : templateOf o = key) by (unfold templateOf; now rewrite Htpl).
    unfold try_catch, bind at 1, renderContent.
    rewrite Hof, (templateContent_inherited key Hkey). reflexivity. }
  rewrite Hrun. unfold failed. cbn [fst snd record files trace].
  split; [reflexivity|]. split; [apply dirReady_files|].
  now rewrite <- !app_assoc.
Qed.

Lemma creation_inherited_key_witness :
  let r := createMarkdownFileHelper sampleHost inheritedKeyOptions notesWorld in
  r.1 = Returned []
  /\ files r.2 = files notesWorld
  /\ trace r.2
     = trace (dirReady sampleHost inheritedKeyOptions notesWorld)
         ++ [ ConsoleError (lit "Error creating Markdown file:") notAFunction;
              ShowToast Failure (lit "Failed to create Markdown file")
                (lit "TypeError: content.replace is not a function") ].
Proof.
  apply (creation_inherited_key sampleHost inheritedKeyOptions notesWorld
           (lit "constructor")).
  - reflexivity.
  - apply list_elem_of_here.
  - left. vm_compute. reflexivity.
  - vm_compute. reflexivity.
Defined.

Lemma fs_exists_dirReady_base (h : Host) (o : CreateMarkdownOptions)
    (w : World) :
  fs_exists (dirReady h o w) (baseDir h o) = true.
Proof.
  unfold dirReady. destruct (fs_exists w (baseDir h o)) eqn:E; [exact E|].
  unfold fs_exists. cbn [files dirs]. apply orb_true_iff. right.
  apply bool_decide_eq_true. set_solver.
Qed.

(** A run in a world where both the directory and the file exist. *)
Lemma creation_on_existing (h : Host) (o : CreateMarkdownOptions) (w : World) :
  fs_exists w (baseDir h o) = true ->
  fs_exists w (filePath h o) = true ->
  createMarkdownFileHelper h o w
  = (Returned [],
     record (ShowToast Failure (lit "File already exists") (fileName (title o)))
       w).
Proof.
  intros Hd Hf.
  rewrite (createMarkdownFileHelper_unfold h o w (or_introl Hd)).
  unfold dirReady. rewrite Hd, Hf. reflexivity.
Qed.

(** X12. creation, twice. After a run that returned a path, the same
    request made again creates nothing: it returns the empty string,
    leaves every file as the first run left it, and only shows the
    notification that the file already exists. *)
Theorem creation_twice (h : Host) (o : CreateMarkdownOptions) (w : World)
    (s : jsstring) :
  (createMarkdownFileHelper h o w).1 = Returned s ->
  s <> [] ->
  let w1 := (createMarkdownFileHelper h o w).2 in
  createMarkdownFileHelper h o w1
  = (Returned [],
     record (ShowToast Failure (lit "File already exists") (fileName (title o)))
       w1).
Proof.
  intros Hs Hne w1. subst w1.
  pose proof (creation_runs h o w) as Hrun.
  destruct (createMarkdownFileHelper h o w) as [out w1].
  cbn [fst snd] in *. subst out.
  inversion Hrun as
    [e Hd Hm | Hf | Hf Ht | tpl e Hf Ht Hw | tpl e w2 Hf Ht Hw Hl
    | tpl w2 Hf Ht Hw Hl]; subst; try congruence.
  destruct (launcher_result _ _ _ _ _ Hl) as (tr & Hfi & Hdi & _).
  apply creation_on_existing.
  - pose proof (fs_exists_dirReady_base h o w) as Hb.
    unfold fs_exists in *. rewrite Hfi, Hdi. unfold written.
    cbn [record files dirs].
    apply orb_prop in Hb as [Hb|Hb]; [|now rewrite Hb, orb_true_r].
    apply bool_decide_eq_true in Hb as [c Hc].
    apply orb_true_iff. left. apply bool_decide_eq_true.
    destruct (decide (filePath h o = baseDir h o)) as [E|E].
    + rewrite <- E, lookup_insert_eq. eauto.
    + rewrite lookup_insert_ne by exact E. eauto.
  - unfold fs_exists. rewrite Hfi. unfold written. cbn [record files].
    rewrite lookup_insert_eq. apply orb_true_iff. left.
    apply bool_decide_eq_true. eauto.
Qed.

Lemma creation_twice_witness :
  let w1 := (createMarkdownFileHelper sampleHost otherOptions notesWorld).2 in
  createMarkdownFileHelper sampleHost otherOptions w1
  = (Returned [],
     record (ShowToast Failure (lit "File already exists")
               (fileName (title otherOptions)))
       w1).
Proof.
  apply (creation_twice sampleHost otherOptions notesWorld
           (lit "/notes/other.md")).
  - vm_compute. reflexivity.
  - discriminate.
Defined.

(** ** Rendering, slot by slot *)

Example template_pieces_source :
  Forall (fun tp => source tp.2 = tp.1) template_pieces.
Proof. repeat constructor. Qed.

Lemma brace_free_inert (p a : jsstring) :
  brace_free a -> inert (lbrace :: p) a.
Proof.
  intros Ha l c t s ->. apply startsWith_head.
  unfold brace_free in Ha. rewrite Forall_app, Forall_cons in Ha. tauto.
Qed.

(** Splitting a text given unit by unit. *)
Ltac split_positions H :=
  repeat match type of H with
    | _ :: _ = ?l ++ _ :: _ =>
        destruct l as [|? l]; cbn [app] in H;
        [ injection H as <- <-; reflexivity | injection H as _ H ]
    | [] = ?l ++ _ :: _ => destruct l; discriminate H
    end.

Lemma date_inert_for_title : inert (lit "{{title}}") (lit "{{date}}").
Proof.
  intros l c t s H.
  change (lit "{{date}}") with [123; 123; 100; 97; 116; 101; 125; 125] in H.
  split_positions H.
Qed.

Lemma tags_inert_for_title : inert (lit "{{title}}") (lit "{{tags}}").
Proof.
  intros l c t s H.
  change (lit "{{tags}}") with [123; 123; 116; 97; 103; 115; 125; 125] in H.
  split_positions H.
Qed.

Lemma tags_inert_for_date : inert (lit "{{date}}") (lit "{{tags}}").
Proof.
  intros l c t s H.
  change (lit "{{tags}}") with [123; 123; 116; 97; 103; 115; 125; 125] in H.
  split_positions H.
Qed.

(** One pass over pieces: the slot of the pattern is filled, the other
    pieces are copied. *)
Lemma pass_over_pieces (pat repl : jsstring) (g g' : Piece -> jsstring)
    (ps : list Piece) (before_rev : jsstring) :
  pat <> [] -> dollar_free repl ->
  Forall (fun p => (g p = pat /\ g' p = repl)
                   \/ (inert pat (g p) /\ g' p = g p)) ps ->
  replace_from (match_literal pat) repl before_rev 0 (concat (g <$> ps))
  = concat (g' <$> ps).
Proof.
  intros Hpat Hrepl Hps. revert before_rev.
  induction Hps as [|p ps Hp _ IH]; intros before_rev; [reflexivity|].
  cbn [fmap list_fmap concat].
  destruct Hp as [[-> ->]|[Hin ->]].
  - rewrite replace_from_match by exact Hpat.
    rewrite getSubstitution_dollar_free by exact Hrepl. now rewrite IH.
  - rewrite replace_from_through by (intros l c t E; exact (Hin l c t _ E)).
    now rewrite IH.
Qed.

(** The three passes on a template given by its pieces. *)
Lemma render_pieces (ps : list Piece) (title date : jsstring)
    (tags : list jsstring) :
  Forall text_brace_free ps ->
  dollar_free title -> brace_free title ->
  dollar_free date -> brace_free date ->
  Forall dollar_free tags ->
  render (source ps) title date tags
  = filled title date (tagsText (formattedTags tags)) ps.
Proof.
  intros Hps Hdt Hbt Hdd Hbd Htags.
  assert (Hdg : dollar_free (tagsText (formattedTags tags))).
  { rewrite tagsText_join. apply join_dollar_free.
    - repeat constructor; discriminate.
    - apply Forall_fmap. eapply Forall_impl; [exact Htags|].
      intros t Ht. unfold compose, formatTag.
      destruct (startsWith t (lit "#")); [exact Ht|].
      constructor; [discriminate|exact Ht]. }
  unfold render, replaceTags, replaceDate, replaceTitle, replace_g, source, filled.
  rewrite (pass_over_pieces (lit "{{title}}") title _
             (fun p => match p with
                       | Text s => s
                       | TitleSlot => title
                       | DateSlot => lit "{{date}}"
                       | TagsSlot => lit "{{tags}}"
                       end)); [|discriminate|exact Hdt|].
  2:{ eapply Forall_impl; [exact Hps|]. intros [s| | |] Hp; cbn in Hp.
      - right. split; [|reflexivity].
        apply (brace_free_inert (lit "{title}}")), Hp.
      - left. split; reflexivity.
      - right. split; [exact date_inert_for_title|reflexivity].
      - right. split; [exact tags_inert_for_title|reflexivity]. }
  rewrite (pass_over_pieces (lit "{{date}}") date _
             (fun p => match p with
                       | Text s => s
                       | TitleSlot => title
                       | DateSlot => date
                       | TagsSlot => lit "{{tags}}"
                       end)); [|discriminate|exact Hdd|].
  2:{ eapply Forall_impl; [exact Hps|]. intros [s| | |] Hp; cbn in Hp.
      - right. split; [|reflexivity].
        apply (brace_free_inert (lit "{date}}")), Hp.
      - right. split; [|reflexivity].
        apply (brace_free_inert (lit "{date}}")), Hbt.
      - left. split; reflexivity.
      - right. split; [exact tags_inert_for_date|reflexivity]. }
  apply pass_over_pieces; [discriminate|exact Hdg|].
  eapply Forall_impl; [exact Hps|]. intros [s| | |] Hp; cbn in Hp.
  - right. split; [|reflexivity].
    apply (brace_free_inert (lit "{tags}}")), Hp.
  - right. split; [|reflexivity].
    apply (brace_free_inert (lit "{tags}}")), Hbt.
  - right. split; [|reflexivity].
    apply (brace_free_inert (lit "{tags}}")), Hbd.
  - left. split; reflexivity.
Qed.

(** ** The date text *)

Lemma digit_is_digit (n : N) : is_digit (digit n) = true.
Proof.
  unfold is_digit, digit.
  assert (n mod 10 < 10) by (apply N.mod_upper_bound; lia).
  generalize dependent (n mod 10). intros m Hm.
  apply andb_true_iff. split; apply N.leb_le; lia.
Qed.

Lemma digits_are_digits (width : nat) (n : N) :
  Forall (fun c => is_digit c = true) (digits width n).
Proof.
  revert n. induction width as [|k IH]; intros n; [constructor|].
  cbn [digits]. apply Forall_app. split; [apply IH|].
  repeat constructor. apply digit_is_digit.
Qed.

Lemma length_digits (width : nat) (n : N) : length (digits width n) = width.
Proof.
  revert n. induction width as [|k IH]; intros n; [reflexivity|].
  cbn [digits]. rewrite length_app, IH. cbn. lia.
Qed.

Lemma number_of_app (a b : jsstring) (acc : N) :
  fold_left (fun acc c => 10 * acc + (c - 48)) (a ++ b) acc
  = fold_left (fun acc c => 10 * acc + (c - 48)) b
      (fold_left (fun acc c => 10 * acc + (c - 48)) a acc).
Proof. apply fold_left_app. Qed.

Lemma number_of_digits (width : nat) (n : N) :
  number_of (digits width n) = n mod 10 ^ N.of_nat width.
Proof.
  unfold number_of. revert n. induction width as [|k IH]; intros n.
  - cbn. now rewrite N.mod_1_r.
  - cbn [digits]. rewrite number_of_app, IH. cbn [fold_left].
    unfold digit. rewrite (N.add_comm 48), N.add_sub.
    rewrite Nat2N.inj_succ, N.pow_succ_r', N.Div0.mod_mul_r.
    apply N.add_comm.
Qed.

(** The units of a date text: digits, hyphens and the sign of a long
    year. *)
Lemma formattedDate_units (d : Date) :
  Forall (fun c => is_digit c = true \/ c = hyphen \/ c = 43) (formattedDate d).
Proof.
  assert (Hd : forall k n, Forall (fun c => is_digit c = true \/ c = hyphen \/ c = 43)
                             (digits k n)).
  { intros k n. eapply Forall_impl; [apply digits_are_digits|]. auto. }
  unfold formattedDate.
  change (lit "-") with [hyphen]. change (lit "+") with [43].
  destruct (year d <=? 9999);
    rewrite ?Forall_app; repeat split; try apply Hd;
    repeat first [apply Forall_nil_2 | apply Forall_cons_2; [auto|]].
Qed.

Lemma formattedDate_plain (d : Date) :
  dollar_free (formattedDate d) /\ brace_free (formattedDate d).
Proof.
  split; (eapply Forall_impl; [apply formattedDate_units|]);
    intros c [H|[->| ->]]; try discriminate;
    intros ->; discriminate H.
Qed.

(** X13. date text. For a year up to 9999 (and month and day below 100)
    the date text has ten units, the digits of the year, a hyphen, the
    digits of the month, a hyphen and the digits of the day, and reading
    the three groups of digits back gives the year, the month and the
    day. *)
Theorem formattedDate_layout (d : Date) :
  year d <= 9999 -> month d <= 99 -> day d <= 99 ->
  length (formattedDate d) = 10%nat
  /\ formattedDate d !! 4%nat = Some hyphen
  /\ formattedDate d !! 7%nat = Some hyphen
  /\ Forall (fun c => is_digit c = true)
       (take 4 (formattedDate d) ++ take 2 (drop 5 (formattedDate d))
          ++ drop 8 (formattedDate d))
  /\ number_of (take 4 (formattedDate d)) = year d
  /\ number_of (take 2 (drop 5 (formattedDate d))) = month d
  /\ number_of (drop 8 (formattedDate d)) = day d.
Proof.
  intros Hy Hm Hd. unfold formattedDate.
  apply N.leb_le in Hy as Hy'. rewrite Hy'.
  pose proof (length_digits 4 (year d)) as L4.
  pose proof (length_digits 2 (month d)) as L2.
  pose proof (length_digits 2 (day d)) as L2'.
  destruct (digits 4 (year d)) as [|y1 [|y2 [|y3 [|y4 [|? ?]]]]] eqn:Ey;
    try discriminate L4.
  destruct (digits 2 (month d)) as [|m1 [|m2 [|? ?]]] eqn:Em;
    try discriminate L2.
  destruct (digits 2 (day d)) as [|d1 [|d2 [|? ?]]] eqn:Ed;
    try discriminate L2'.
  change (lit "-") with [hyphen]. cbn [app take drop length lookup list_lookup].
  split; [reflexivity|]. split; [reflexivity|]. split; [reflexivity|].
  split.
  { pose proof (digits_are_digits 4 (year d)) as H4. rewrite Ey in H4.
    pose proof (digits_are_digits 2 (month d)) as H2. rewrite Em in H2.
    pose proof (digits_are_digits 2 (day d)) as H2'. rewrite Ed in H2'.
    change [y1; y2; y3; y4; m1; m2; d1; d2]
      with ([y1; y2; y3; y4] ++ [m1; m2] ++ [d1; d2]).
    rewrite !Forall_app. auto. }
  rewrite <- Ey, <- Em, <- Ed, !number_of_digits.
  change (10 ^ N.of_nat 4) with 10000. change (10 ^ N.of_nat 2) with 100.
  rewrite !N.mod_small by lia. auto.
Qed.

Lemma formattedDate_layout_witness :
  let d := now sampleHost in
  length (formattedDate d) = 10%nat
  /\ formattedDate d !! 4%nat = Some hyphen
  /\ formattedDate d !! 7%nat = Some hyphen
  /\ Forall (fun c => is_digit c = true)
       (take 4 (formattedDate d) ++ take 2 (drop 5 (formattedDate d))
          ++ drop 8 (formattedDate d))
  /\ number_of (take 4 (formattedDate d)) = year d
  /\ number_of (take 2 (drop 5 (formattedDate d))) = month d
  /\ number_of (drop 8 (formattedDate d)) = day d.
Proof.
  apply (formattedDate_layout (now sampleHost)); vm_compute; discriminate.
Defined.

(** X14. date pass. Whatever the date and the content, the date pass puts
    the date text as it is at every date placeholder. *)
Theorem date_inserted_as_is (d : Date) (content : jsstring) :
  replaceDate (formattedDate d) content
  = substitute (lit "{{date}}") (formattedDate d) content.
Proof. apply replace_g_substitute, formattedDate_plain. Qed.

(** ** Rendering the four templates *)

Lemma brace_free_check (s : jsstring) :
  forallb (fun c => negb (c =? lbrace)) s = true -> brace_free s.
Proof.
  intros H. apply Forall_forall. intros c Hc.
  rewrite forallb_forall in H. apply list_elem_of_In, H in Hc.
  intros ->. discriminate Hc.
Qed.

Lemma template_pieces_brace_free :
  Forall (fun tp => Forall text_brace_free tp.2) template_pieces.
Proof.
  unfold template_pieces, basic_pieces, meeting_pieces, blog_pieces,
    project_pieces.
  repeat first
    [ apply Forall_nil_2
    | apply Forall_cons_2;
      [ first [ exact I
              | apply brace_free_check; vm_compute; reflexivity
              | cbn [snd] ] |] ].
Qed.

(** X15. rendering, slot by slot. For a title without dollar and brace
    and tags without dollar, the rendering of each of the four templates
    with text is the template with every title slot holding the title,
    the date slot the date text and the tags slot the joined,
    hash-prefixed tags, and with its fixed text unchanged. *)
Theorem rendering_fills_every_slot (tpl title : jsstring) (ps : list Piece)
    (d : Date) (tags : list jsstring) :
  (tpl, ps) ∈ template_pieces ->
  dollar_free title -> brace_free title ->
  Forall dollar_free tags ->
  source ps = tpl
  /\ render tpl title (formattedDate d) tags
     = filled title (formattedDate d) (join (lit ", ") (formattedTags tags)) ps.
Proof.
  intros Hin Hdt Hbt Htags.
  pose proof template_pieces_source as Hsrc.
  pose proof template_pieces_brace_free as Hbf.
  rewrite Forall_forall in Hsrc, Hbf.
  specialize (Hsrc _ Hin). specialize (Hbf _ Hin). cbn [fst snd] in Hsrc, Hbf.
  split; [exact Hsrc|]. rewrite <- Hsrc, <- tagsText_join.
  destruct (formattedDate_plain d) as [Hdd Hbd].
  now apply render_pieces.
Qed.

Lemma rendering_fills_every_slot_witness :
  source blog_pieces = tpl_blog
  /\ render tpl_blog (lit "My Note") (formattedDate (now sampleHost))
       [lit "work"; lit "#urgent"]
     = filled (lit "My Note") (formattedDate (now sampleHost))
         (join (lit ", ") (formattedTags [lit "work"; lit "#urgent"]))
         blog_pieces.
Proof.
  apply rendering_fills_every_slot.
  - unfold template_pieces. do 2 apply list_elem_of_further.
    apply list_elem_of_here.
  - repeat constructor; discriminate.
  - repeat constructor; discriminate.
  - repeat constructor; discriminate.
Defined.





(** ** Tags *)

Lemma formatTag_idempotent (tag : jsstring) :
  formatTag (formatTag tag) = formatTag tag.
Proof.
  unfold formatTag at 1. now rewrite formatTag_hash.
Qed.

(** X17. tag normalization. Normalizing keeps the number and the order of
    the tags, gives each tag either unchanged or behind one hash, and
    changes nothing when applied again. *)
Theorem formattedTags_stable (tags : list jsstring) :
  formattedTags (formattedTags tags) = formattedTags tags
  /\ length (formattedTags tags) = length tags
  /\ Forall2 (fun tag ft => (startsWith tag (lit "#") = true /\ ft = tag)
                            \/ (startsWith tag (lit "#") = false
                                /\ ft = hash_unit :: tag))
       tags (formattedTags tags).
Proof.
  unfold formattedTags. split; [|split].
  - rewrite <- list_fmap_compose. apply list_fmap_ext.
    intros _ t _. apply formatTag_idempotent.
  - apply length_fmap.
  - induction tags as [|t tags IH]; [constructor|].
    cbn [fmap list_fmap]. constructor; [|exact IH].
    unfold formatTag. destruct (startsWith t (lit "#")); auto.
Qed.

(** X18. tags pass. For tags without dollar and any content, the tags pass
    puts the hash-prefixed tags, joined by a comma and a space, as they
    are at every tags placeholder; for an empty tag list it puts the
    empty text there. *)
Theorem tags_pass_inserts_joined_tags (tags : list jsstring)
    (content : jsstring) :
  Forall dollar_free tags ->
  replaceTags (tagsText (formattedTags tags)) content
  = substitute (lit "{{tags}}") (join (lit ", ") (formattedTags tags)) content
  /\ (tags = [] ->
      replaceTags (tagsText (formattedTags tags)) content
      = substitute (lit "{{tags}}") [] content).
Proof.
  intros H. split; [now apply tags_substituted|].
  intros ->. apply (replace_g_substitute (lit "{{tags}}") []). constructor.
Qed.

Lemma tags_pass_inserts_joined_tags_witness :
  replaceTags (tagsText (formattedTags [lit "work"; lit "#urgent"])) tpl_blog
  = substitute (lit "{{tags}}")
      (join (lit ", ") (formattedTags [lit "work"; lit "#urgent"])) tpl_blog
  /\ ([lit "work"; lit "#urgent"] = [] ->
      replaceTags (tagsText (formattedTags [lit "work"; lit "#urgent"])) tpl_blog
      = substitute (lit "{{tags}}") [] tpl_blog).
Proof.
  apply tags_pass_inserts_joined_tags. repeat constructor; discriminate.
Defined.

(** ** Filenames *)

Lemma name_unit_fixed (c : N) :
  is_name_unit c = true ->
  (if is_ascii_alnum c then lower_unit c else hyphen) = c.
Proof.
  intros H. pose proof (lower_unit_idem c H) as Hl. rewrite Hl.
  destruct (is_ascii_alnum c) eqn:E; [reflexivity|].
  unfold is_name_unit in H. unfold is_ascii_alnum in E.
  apply orb_false_elim in E as [E Ed]. apply orb_false_elim in E as [El _].
  rewrite El, Ed in H. cbn in H. apply N.eqb_eq in H. now subst.
Qed.

(** X19. filename, idempotence. Deriving the stem of a derived stem
    changes nothing, and the filename is three units longer than the
    title. *)
Theorem sanitizedTitle_idempotent (title : jsstring) :
  sanitizedTitle (sanitizedTitle title) = sanitizedTitle title
  /\ length (fileName title) = (length title + 3)%nat.
Proof.
  split.
  - rewrite !sanitizedTitle_map, <- list_fmap_compose.
    apply list_fmap_ext. intros _ c _. unfold compose.
    apply name_unit_fixed, lower_unit_name_unit.
  - unfold fileName. rewrite length_app, sanitizedTitle_map, length_fmap.
    reflexivity.
Qed.

Lemma unit_alike_same (a b : N) :
  unit_alike a b ->
  (if is_ascii_alnum a then lower_unit a else hyphen)
  = (if is_ascii_alnum b then lower_unit b else hyphen).
Proof.
  intros [->|[[Ha Hb]|[[Ha ->]|[Hb ->]]]]; [reflexivity|now rewrite Ha, Hb| |].
  - unfold is_ascii_alnum, lower_unit, is_lower, is_digit. rewrite Ha.
    unfold is_upper in *. apply andb_true_iff in Ha as [H1 H2].
    apply N.leb_le in H1, H2.
    repeat match goal with
           | |- context [?x <=? ?y] => destruct (N.leb_spec x y)
           end; cbn; lia.
  - unfold is_ascii_alnum, lower_unit, is_lower, is_digit. rewrite Hb.
    unfold is_upper in *. apply andb_true_iff in Hb as [H1 H2].
    apply N.leb_le in H1, H2.
    repeat match goal with
           | |- context [?x <=? ?y] => destruct (N.leb_spec x y)
           end; cbn; lia.
Qed.

(** X20. filename, collisions. Titles of the same length that differ only
    in the case of letters and in which units stand where no letter or
    digit stands have the same filename (so the second of them cannot be
    created beside the first). *)
Theorem alike_titles_same_fileName (t1 t2 : jsstring) :
  Forall2 unit_alike t1 t2 -> fileName t1 = fileName t2.
Proof.
  intros H. unfold fileName. f_equal. rewrite !sanitizedTitle_map.
  induction H as [|a b t1 t2 Hab _ IH]; [reflexivity|].
  cbn [fmap list_fmap]. now rewrite (unit_alike_same a b Hab), IH.
Qed.

Lemma alike_titles_same_fileName_witness :
  fileName (lit "My Note") = fileName (lit "my_note").
Proof.
  apply alike_titles_same_fileName.
  change (lit "My Note") with [77; 121; 32; 78; 111; 116; 101].
  change (lit "my_note") with [109; 121; 95; 110; 111; 116; 101].
  constructor; [right; right; left; split; reflexivity|].
  constructor; [left; reflexivity|].
  constructor; [right; left; split; reflexivity|].
  constructor; [right; right; left; split; reflexivity|].
  do 3 (constructor; [left; reflexivity|]).
  constructor.
Defined.

(** ** Permanent delete, further *)

(** X21. delete, frame. Permanent delete leaves every other file and every
    directory as they were, whatever the answers of the host. *)
Theorem confirmDelete_keeps_other_files (h : Host) (file : MarkdownFile)
    (w : World) :
  let r := confirmDelete h file w in
  (forall p, p <> path file -> files r.2 !! p = files w !! p)
  /\ dirs r.2 = dirs w
  /\ (occurrences is_toast
        (drop (length (trace w)) (trace r.2)) <= 1)%nat.
Proof.
  unfold confirmDelete, try_catch, bind, confirmAlert, unlinkSync,
    showFailureToast, showToast, revalidate, emit, ret.
  destruct (confirmAlert_answer h); cbn [fst snd record files dirs trace].
  - destruct (unlink_error h (path file)) as [e|];
      [|destruct (files w !! path file) as [c|] eqn:E];
      cbn [fst snd record files dirs trace];
      rewrite <- ?app_assoc, drop_app_length;
      (split; [|split; [reflexivity|cbn; lia]]);
      intros p Hp; try reflexivity.
    now rewrite lookup_delete_ne.
  - rewrite drop_app_length. repeat split. cbn. lia.
Qed.

(** X22. delete, twice. After a confirmed deletion that succeeded,
    deleting the same file again (also confirmed) fails: the removal
    throws the error of a missing path, no file changes and the refresh
    callback is not invoked a second time.  The failure notification
    shown does not carry the message of that error: its title is
    [Something went wrong] and its message [[object Object]]. *)
Theorem confirmDelete_twice (h : Host) (file : MarkdownFile) (w : World)
    (content : jsstring) :
  confirmAlert_answer h = true ->
  unlink_error h (path file) = None ->
  files w !! path file = Some content ->
  bool_decide (path file ∈ dirs w) = false ->
  let w1 := (confirmDelete h file w).2 in
  let r := confirmDelete h file w1 in
  files w1 !! path file = None
  /\ (unlinkSync h (path file) (record (deleteAlert file) w1)).1
     = Threw (enoent (path file))
  /\ r.1 = Returned tt
  /\ files r.2 = files w1
  /\ trace r.2
     = trace w1 ++ [ deleteAlert file; UnlinkSync (path file);
                     ShowToast Failure (lit "Something went wrong")
                       (lit "[object Object]") ]
  /\ revalidations (trace r.2) = revalidations (trace w1).
Proof.
  intros Hc Hu Hf Hd w1 r.
  assert (Hw1 : files w1 = delete (path file) (files w) /\ dirs w1 = dirs w).
  { subst w1. unfold confirmDelete, try_catch, bind, confirmAlert, unlinkSync.
    rewrite Hc. cbn [record files]. rewrite Hu, Hf. split; reflexivity. }
  destruct Hw1 as [Hw1 Hd1].
  assert (Hnone : files w1 !! path file = None).
  { rewrite Hw1. apply lookup_delete_eq. }
  split; [exact Hnone|]. split.
  { unfold unlinkSync. cbn [record files dirs]. rewrite Hu, Hnone, Hd1, Hd.
    reflexivity. }
  subst r.
  unfold confirmDelete, try_catch, bind, confirmAlert, unlinkSync.
  rewrite Hc. cbn [record files]. rewrite Hu, Hnone.
  unfold showFailureToast, showToast, emit.
  cbn [fst snd record files trace default].
  rewrite <- !app_assoc, revalidations_app. cbn [app revalidations deleteAlert].
  repeat split. unfold deleteAlert. cbn [revalidations]. lia.
Qed.

Lemma confirmDelete_twice_witness :
  let w1 := (confirmDelete sampleHost noteFile notesWorld).2 in
  let r := confirmDelete sampleHost noteFile w1 in
  files w1 !! path noteFile = None
  /\ (unlinkSync sampleHost (path noteFile) (record (deleteAlert noteFile) w1)).1
     = Threw (enoent (path noteFile))
  /\ r.1 = Returned tt
  /\ files r.2 = files w1
  /\ trace r.2
     = trace w1 ++ [ deleteAlert noteFile; UnlinkSync (path noteFile);
                     ShowToast Failure (lit "Something went wrong")
                       (lit "[object Object]") ]
  /\ revalidations (trace r.2) = revalidations (trace w1).
Proof.
  apply (confirmDelete_twice sampleHost noteFile notesWorld (lit "kept")).
  - reflexivity.
  - reflexivity.
  - vm_compute. reflexivity.
  - vm_compute. reflexivity.
Defined.

(** * The action panels and the list item *)

(** Up to [2^53] an integer is a double. *)
Lemma to_double_exact (z : Z) :
  (Z.abs z <= 2 ^ 53)%Z -> to_double z = z.
Proof.
  intros H. unfold to_double. apply Z.leb_le in H. now rewrite H.
Qed.

(** X23. pagination. On a page of a list of at most [2^53] pages (the
    range in which the page numbers are exact), the page actions lead
    only to pages of the list and never to the current one; the first
    page has no action back, the last none forward, and a list of one
    page none at all. *)
Theorem pagination_stays_in_range (currentPage totalPages : Z) :
  (0 <= currentPage < totalPages)%Z ->
  (totalPages <= 2 ^ 53)%Z ->
  Forall (fun a => exists page,
                     pageTarget a = Some page
                     /\ (0 <= page < totalPages)%Z
                     /\ (page = currentPage - 1 \/ page = currentPage + 1)%Z)
    (paginationActions currentPage totalPages)
  /\ (currentPage = 0%Z ->
      Forall (fun a => pageTarget a <> Some (currentPage - 1)%Z)
        (paginationActions currentPage totalPages))
  /\ (currentPage = (totalPages - 1)%Z ->
      Forall (fun a => pageTarget a <> Some (currentPage + 1)%Z)
        (paginationActions currentPage totalPages))
  /\ (totalPages = 1%Z -> paginationActions currentPage totalPages = []).
Proof.
  intros Hrange Hexact. unfold paginationActions.
  change (2 ^ 53)%Z with 9007199254740992%Z in Hexact.
  rewrite !to_double_exact
    by (change (2 ^ 53)%Z with 9007199254740992%Z; lia).
  destruct (Z.ltb_spec 0 currentPage) as [Hp|Hp];
    destruct (Z.ltb_spec currentPage (totalPages - 1)) as [Hn|Hn];
    cbn [app]; repeat split;
    try (intros; lia);
    try (intros; repeat constructor; cbn; intros [= ?]; lia);
    repeat constructor; eexists; cbn; (split; [reflexivity|lia]).
Qed.

Lemma pagination_stays_in_range_witness :
  Forall (fun a => exists page,
                     pageTarget a = Some page
                     /\ (0 <= page < 3)%Z
                     /\ (page = 1 - 1 \/ page = 1 + 1)%Z)
    (paginationActions 1 3)
  /\ (1%Z = 0%Z ->
      Forall (fun a => pageTarget a <> Some (1 - 1)%Z) (paginationActions 1 3))
  /\ (1%Z = (3 - 1)%Z ->
      Forall (fun a => pageTarget a <> Some (1 + 1)%Z) (paginationActions 1 3))
  /\ (3%Z = 1%Z -> paginationActions 1 3 = []).
Proof.
  apply (pagination_stays_in_range 1 3); [lia|].
  change (2 ^ 53)%Z with 9007199254740992%Z. lia.
Defined.

(** Beyond that range the sum [currentPage + 1] is rounded: on page
    [2^53] of [2^53 + 4] pages the action [Next Page] leads to the
    current page. *)
Example pagination_beyond_exact_range :
  pageTarget <$> paginationActions (2 ^ 53) (2 ^ 53 + 4)
  = [ Some (2 ^ 53 - 1)%Z; Some (2 ^ 53)%Z ].
Proof. vm_compute. reflexivity. Qed.

(** X24. shortcuts. Whatever the props, no two actions of the panel of a
    list item have the same shortcut (the modifiers taken in any
    order). *)
Theorem itemActions_shortcuts_distinct (props : FileListItemProps) :
  NoDup (chords (itemActions props)).
Proof.
  unfold itemActions, tagActions, paginationActions.
  destruct (tagSelected (selectedTag props)), (showColorTags props),
    (0 <? currentPage props)%Z,
    (currentPage props <? to_double (totalPages props - 1))%Z;
    vm_compute;
    repeat (apply NoDup_cons_2;
            [intros H; repeat (apply elem_of_cons in H as [H|H];
                               [discriminate H|]); inversion H|]);
    apply NoDup_nil_2.
Qed.

(** X25. the common panel. Every action of [CommonActions] and of
    [LoadMoreAction] is also in the panel of a list item shown with the
    same tag filter and colour setting: same handler, same icon, and the
    same shortcut where the common panel gives one. *)
Theorem common_actions_in_item_panel (props : FileListItemProps)
    (a : ActionItem) :
  a ∈ concat (CommonActions (showColorTags props) (selectedTag props))
      ++ LoadMoreAction ->
  exists b,
    b ∈ concat (itemActions props)
    /\ onAction b = onAction a
    /\ icon b = icon a
    /\ (shortcut a = None \/ shortcut a = shortcut b).
Proof.
  unfold CommonActions, LoadMoreAction, itemActions, tagActions.
  destruct (tagSelected (selectedTag props)); cbn [concat app]; intros H;
    repeat (apply elem_of_cons in H as [->|H];
            [apply Exists_exists;
             repeat first [ apply Exists_cons_hd; solve [cbn; auto]
                          | apply Exists_cons_tl ]|]);
    inversion H.
Qed.

Lemma common_actions_in_item_panel_witness :
  exists b,
    b ∈ concat (itemActions sampleProps)
    /\ onAction b = onAction clearTagFilter
    /\ icon b = icon clearTagFilter
    /\ (shortcut clearTagFilter = None
        \/ shortcut clearTagFilter = shortcut b).
Proof.
  apply (common_actions_in_item_panel sampleProps clearTagFilter).
  vm_compute. do 4 apply list_elem_of_further. apply list_elem_of_here.
Defined.

Lemma shownTags_tagAccessory (u : ListHelpers) (show : bool)
    (tags : list jsstring) :
  shownTags (tagAccessory u show <$> tags) = tags.
Proof.
  unfold shownTags. induction tags as [|t tags IH]; [reflexivity|].
  cbn [fmap list_fmap omap list_omap tagAccessory]. now rewrite IH.
Qed.

(** X26. accessories. The item shows the first [MAX_VISIBLE_TAGS] of the
    sorted tags by themselves, in their order.  When tags are left over,
    one more accessory closes the list: it gives their count behind a
    plus sign and lists them in its tooltip; otherwise no such accessory
    is there.  With the colours switched off no tag has a tint. *)
Theorem accessories_show_or_count_every_tag (u : ListHelpers)
    (props : FileListItemProps) :
  let sorted := sortTags u (fileTags (file props)) in
  let shown := take (MAX_VISIBLE_TAGS u) sorted in
  let hidden := drop (MAX_VISIBLE_TAGS u) sorted in
  sorted = shown ++ hidden
  /\ shownTags (accessories u props) = shown
  /\ (length (accessories u props) <= MAX_VISIBLE_TAGS u + 2)%nat
  /\ (hidden = [] ->
      length (accessories u props) = S (length sorted))
  /\ (hidden <> [] ->
      length shown = MAX_VISIBLE_TAGS u
      /\ last (accessories u props)
         = Some (hiddenAccessory (length hidden) hidden))
  /\ (showColorTags props = false ->
      Forall (fun a => forall value tint tooltip,
                         a <> TagAccessory value (Some (Tint tint)) tooltip)
        (accessories u props)).
Proof.
  intros sorted shown hidden.
  assert (Hlen : (length sorted - length shown)%nat = length hidden).
  { subst shown hidden. rewrite length_take, length_drop. lia. }
  assert (Hshown : (length shown <= MAX_VISIBLE_TAGS u)%nat).
  { subst shown. rewrite length_take. lia. }
  unfold accessories. fold sorted. fold shown. fold hidden. rewrite Hlen.
  split; [symmetry; apply take_drop|].
  destruct hidden as [|t hidden'] eqn:Eh; cbn [length Nat.ltb Nat.leb].
  - rewrite app_nil_r. cbn [app]. unfold shownTags at 1.
    cbn [omap list_omap]. fold (shownTags (tagAccessory u (showColorTags props) <$> shown)).
    rewrite shownTags_tagAccessory. cbn [length]. rewrite length_fmap.
    assert (Hall : shown = sorted).
    { rewrite <- (take_drop (MAX_VISIBLE_TAGS u) sorted). fold shown.
      fold hidden. rewrite Eh. now rewrite app_nil_r. }
    split; [reflexivity|]. split; [lia|]. split; [now rewrite Hall|].
    split; [congruence|]. intros Hoff. constructor; [discriminate|].
    apply Forall_fmap, Forall_forall. intros tag _ value tint tooltip.
    unfold compose, tagAccessory. rewrite Hoff. discriminate.
  - assert (Hfull : length shown = MAX_VISIBLE_TAGS u).
    { subst shown. rewrite length_take. apply Nat.min_l.
      assert (length (drop (MAX_VISIBLE_TAGS u) sorted) <> 0%nat) as Hd
        by (fold hidden; rewrite Eh; discriminate).
      rewrite length_drop in Hd. lia. }
    split.
    { cbn [app]. unfold shownTags. cbn [omap list_omap].
      rewrite omap_app. cbn [omap list_omap hiddenAccessory].
      rewrite app_nil_r. apply shownTags_tagAccessory. }
    split; [cbn [app length]; rewrite length_app, length_fmap; cbn; lia|].
    split; [discriminate|]. split.
    { intros _. split; [exact Hfull|].
      rewrite app_assoc. apply last_snoc. }
    intros Hoff. constructor; [discriminate|].
    apply Forall_app. split.
    + apply Forall_fmap, Forall_forall. intros tag _ value tint tooltip.
      unfold compose, tagAccessory. rewrite Hoff. discriminate.
    + repeat constructor. discriminate.
Qed.

(** ** Creating, then deleting *)




(** The item of the sample props: relative subtitle, three tags shown
    and two counted. *)
Example FileListItem_sample :
  let item := FileListItem sampleHelpers sampleProps in
  itemId item = lit "/notes/my-note.md"
  /\ itemSubtitle item = lit "/notes/my-note.md"
  /\ shownTags (itemAccessories item) = [lit "#a"; lit "#b"; lit "#c"]
  /\ last (itemAccessories item)
     = Some (TagAccessory (lit "+2") (Some SecondaryText)
               (Some (lit "2 more tags: #d, #e"))).
Proof. vm_compute. repeat split. Qed.
